(** * go-nsenter: the namespace-join sequence of [nsenter.go]

    A shallow embedding of [src/nsenter.go].  The program is a straight
    line of system calls, so it is modelled in a small monad that threads
    the history of calls made so far and can stop the process
    ([os.Exit], [log.Fatalf], a successful [unix.Exec]).  The operating
    system is an oracle: every call's result may depend on everything the
    process has done before. *)

From Stdlib Require Import ZArith String List Bool Lia.
From stdpp Require Import base gmap strings list pretty.

Local Open Scope Z_scope.


(** ** Constants of [golang.org/x/sys/unix] (Linux values) *)

Definition CLONE_NEWNS   : Z := 0x00020000.
Definition CLONE_NEWUTS  : Z := 0x04000000.
Definition CLONE_NEWIPC  : Z := 0x08000000.
Definition CLONE_NEWUSER : Z := 0x10000000.
Definition CLONE_NEWPID  : Z := 0x20000000.
Definition CLONE_NEWNET  : Z := 0x40000000.

(** [var nsMap = map[string]int{...}] *)
Definition nsMap : gmap string Z :=
  <["mnt"  := CLONE_NEWNS]>
  (<["net"  := CLONE_NEWNET]>
  (<["ipc"  := CLONE_NEWIPC]>
  (<["uts"  := CLONE_NEWUTS]>
  (<["user" := CLONE_NEWUSER]>
  (<["pid"  := CLONE_NEWPID]> ∅))))).

(** ** Data *)

(** A Go [error] is kept as the text [err.Error()] returns. *)
Definition error : Type := string.

(** A file descriptor, [int(fd.Fd())]. *)
Definition Fd : Type := Z.

Inductive Stream : Type := os_Stdin | os_Stdout | os_Stderr.

(** [unix.SysProcAttr], the one field the program writes. *)
Record SysProcAttr : Type := { Cloneflags : Z }.

(** [exec.Cmd], the fields the program touches. *)
Record Cmd : Type := {
  Path : string;
  Args : list string;
  Stdin : option Stream;
  Stdout : option Stream;
  Stderr : option Stream;
  SysProcAttr_ : option SysProcAttr
}.

(** What became of the child that [cmd.Run] started and waited for. *)
Inductive RunResult : Type :=
| ChildExited (status : Z)      (* the child ran and exited with [status] *)
| ChildFailed (err : error).    (* not started, killed, or stream copy failed *)

(** One call of the process to the outside world, with its result. *)
Inductive Event : Type :=
| LockOSThread
| UnlockOSThread
| Usage
| Open (name : string) (r : Fd + error)
| Close (fd : Fd)
| Unshare (flags : Z) (r : option error)
| Setns (fd : Fd) (nstype : Z) (r : option error)
| Print (s : string)                       (* written to standard output *)
| Eprint (s : string)                      (* written to standard error *)
| Eprintln (s : string) (e : error)        (* builtin [println] of a string and an error *)
| Log (s : string)                         (* message handed to the standard logger *)
| Run (c : Cmd) (r : RunResult)            (* [cmd.Run]: spawn a child, wait for it *)
| Exec (argv0 : string) (argv envv : list string) (r : option error)
| Exit (code : Z).

(** How the process ends. *)
Inductive Outcome : Type :=
| Exited (status : Z)
| Replaced (argv0 : string) (argv envv : list string).

(** The operating system: each call's result, given the calls so far. *)
Record OS : Type := {
  sys_open    : list Event -> string -> Fd + error;
  sys_unshare : list Event -> Z -> option error;
  sys_setns   : list Event -> Fd -> Z -> option error;
  sys_run     : list Event -> Cmd -> RunResult;
  sys_execve  : list Event -> string -> list string -> list string -> option error
}.

(** The command line after [flag.Parse], and the environment. *)
Record Invocation : Type := {
  pid   : Z;
  mntNs : bool;
  utsNs : bool;
  netNs : bool;
  ipcNs : bool;
  pidNs : bool;
  flag_Args : list string;               (* [flag.Args()] *)
  environ : list (string * string)       (* the process environment *)
}.

(** ** The monad *)

Inductive Res (A : Type) : Type :=
| Val (a : A)
| Halt (o : Outcome).
Arguments Val {A} a.
Arguments Halt {A} o.

(** A computation maps the history so far to a result and the extended
    history. *)
Definition M (A : Type) : Type := list Event -> Res A * list Event.

#[global] Instance M_ret : MRet M := fun A a h => (Val a, h).
#[global] Instance M_bind : MBind M := fun A B k m h =>
  match m h with
  | (Val a, h') => k a h'
  | (Halt o, h') => (Halt o, h')
  end.

Definition emit (e : Event) : M unit := fun h => (Val tt, h ++ [e]).

Definition call {A : Type} (f : list Event -> A) (ev : A -> Event) : M A :=
  fun h => let r := f h in (Val r, h ++ [ev r]).

Definition halt {A : Type} (o : Outcome) : M A := fun h => (Halt o, h).

(** [defer d] around a function body: [d] runs when the body returns, not
    when the process stops inside it. *)
Definition defer {A : Type} (d : M unit) (body : M A) : M A :=
  a ← body; d;; mret a.

(** ** Library calls *)

Section Program.
Variable os : OS.

Definition os_Open (name : string) : M (Fd + error) :=
  call (fun h => sys_open os h name) (Open name).

Definition file_Close (fd : Fd) : M unit := emit (Close fd).

Definition unix_Unshare (flags : Z) : M (option error) :=
  call (fun h => sys_unshare os h flags) (Unshare flags).

Definition unix_Setns (fd : Fd) (nstype : Z) : M (option error) :=
  call (fun h => sys_setns os h fd nstype) (Setns fd nstype).

Definition os_Exit {A : Type} (code : Z) : M A :=
  emit (Exit code);; halt (Exited code).

(** [log.Fatalf]: the message goes to the logger, then [os.Exit(1)]. *)
Definition log_Fatalf {A : Type} (msg : string) : M A :=
  emit (Log msg);; os_Exit 1.

Definition newline : string := String (Ascii.ascii_of_nat 10) EmptyString.

(** [fmt.Println]: operands separated by spaces, then a newline. *)
Definition fmt_Println (operands : list string) : M unit :=
  emit (Print (String.concat " " operands +:+ newline)).

(** [exec.Command(name, arg...)]; [Path] is the name as given, before the
    search of the executable that the library does for a bare name. *)
Definition exec_Command (name : string) (arg : list string) : Cmd :=
  {| Path := name; Args := name :: arg;
     Stdin := None; Stdout := None; Stderr := None; SysProcAttr_ := None |}.

Definition with_Stdin (s : Stream) (c : Cmd) : Cmd :=
  {| Path := Path c; Args := Args c; Stdin := Some s; Stdout := Stdout c;
     Stderr := Stderr c; SysProcAttr_ := SysProcAttr_ c |}.
Definition with_Stdout (s : Stream) (c : Cmd) : Cmd :=
  {| Path := Path c; Args := Args c; Stdin := Stdin c; Stdout := Some s;
     Stderr := Stderr c; SysProcAttr_ := SysProcAttr_ c |}.
Definition with_Stderr (s : Stream) (c : Cmd) : Cmd :=
  {| Path := Path c; Args := Args c; Stdin := Stdin c; Stdout := Stdout c;
     Stderr := Some s; SysProcAttr_ := SysProcAttr_ c |}.
Definition with_SysProcAttr (a : SysProcAttr) (c : Cmd) : Cmd :=
  {| Path := Path c; Args := Args c; Stdin := Stdin c; Stdout := Stdout c;
     Stderr := Stderr c; SysProcAttr_ := Some a |}.

(** [cmd.Run]: nil exactly when the child ran and exited with status 0;
    a non-zero status comes back as an [*exec.ExitError]. *)
Definition cmd_Run (c : Cmd) : M (option error) :=
  r ← call (fun h => sys_run os h c) (Run c);
  match r with
  | ChildExited status =>
      if status =? 0 then mret None
      else mret (Some ("exit status " +:+ pretty status))
  | ChildFailed err => mret (Some err)
  end.

(** [unix.Exec]: returns only when the exec failed. *)
Definition unix_Exec (argv0 : string) (argv envv : list string)
  : M (option error) :=
  r ← call (fun h => sys_execve os h argv0 argv envv) (Exec argv0 argv envv);
  match r with
  | None => halt (Replaced argv0 argv envv)
  | Some err => mret (Some err)
  end.

(** [os.Getenv]: the first binding of the key, the empty string when unset. *)
Fixpoint os_Getenv (env : list (string * string)) (key : string) : string :=
  match env with
  | [] => ""
  | (k, v) :: env' => if String.eqb k key then v else os_Getenv env' key
  end.

(** [os.Environ]: the environment as "key=value" strings.  The runtime
    keeps the first binding of a key and drops every later one; [seen]
    holds the keys met so far. *)
Fixpoint os_Environ_from (seen : list string) (env : list (string * string))
  : list string :=
  match env with
  | [] => []
  | (k, v) :: env' =>
      if existsb (String.eqb k) seen then os_Environ_from seen env'
      else (k +:+ "=" +:+ v) :: os_Environ_from (k :: seen) env'
  end.

Definition os_Environ (env : list (string * string)) : list string :=
  os_Environ_from [] env.

(** ** [enterNamespace] (nsenter.go, lines 33-56) *)

(** [fmt.Sprintf("/proc/%d/ns/%s", pid, nsType)] *)
Definition nsPath (pid : Z) (nsType : string) : string :=
  ("/proc/" +:+ pretty pid +:+ "/ns/") +:+ nsType.

Definition enterNamespace (pid : Z) (nsType : string) : M (option error) :=
  r ← os_Open (nsPath pid nsType);
  match r with
  | inr err =>
      mret (Some ("failed to open namespace " +:+ nsType +:+ ": " +:+ err))
  | inl fd =>
      defer (file_Close fd)
        match nsMap !! nsType with
        | None => mret (Some ("unsupported namespace: " +:+ nsType))
        | Some nsConst =>
            e ← (if String.eqb nsType "mnt"
                 then unix_Unshare CLONE_NEWNS else mret None);
            match e with
            | Some err => mret (Some ("unshare mnt before setns: " +:+ err))
            | None =>
                e ← unix_Setns fd nsConst;
                match e with
                | Some err =>
                    mret (Some ("setns for " +:+ nsType +:+ " failed: " +:+ err))
                | None => mret None
                end
            end
        end
  end.

(** ** [main] (nsenter.go, lines 58-157) *)

(** Lines 67-78: the command to run and its arguments. *)
Definition main_command (inv : Invocation) : string * list string :=
  if (length (flag_Args inv) =? 0)%nat then
    let command := os_Getenv (environ inv) "SHELL" in
    let command := if String.eqb command "" then "/bin/sh" else command in
    (command, [])
  else
    (List.hd "" (flag_Args inv), List.tl (flag_Args inv)).

Definition advisory : string :=
  "For now, there's a strange bug - if you don't get a new mount namespace, ps and similar command do not work properly".

(** One of the three guarded joins of lines 90-104 and 116-120. *)
Definition enter_or_die (pid : Z) (nsType : string) : M unit :=
  e ← enterNamespace pid nsType;
  match e with
  | Some err =>
      log_Fatalf ("Failed to enter " +:+ nsType +:+ " namespace: " +:+ err)
  | None => mret tt
  end.

(** Lines 85-132: the join sequence.  Returns the handle on the target's
    PID namespace (closed by a [defer] when [main] returns) and the value
    of [needsFork]. *)
Definition main_joins (inv : Invocation) : M (Fd * bool) :=
  let needsFork := false in
  emit LockOSThread;;
  (if utsNs inv then enter_or_die (pid inv) "uts" else mret tt);;
  (if netNs inv then enter_or_die (pid inv) "net" else mret tt);;
  (if ipcNs inv then enter_or_die (pid inv) "ipc" else mret tt);;
  let nsPath := nsPath (pid inv) "pid" in
  r ← os_Open nsPath;
  match r with
  | inr err => fmt_Println ["open %s: %w"; nsPath; err];; os_Exit 1
  | inl pidFD =>
      (if mntNs inv then enter_or_die (pid inv) "mnt" else mret tt);;
      needsFork ←
        (if pidNs inv then
           e ← unix_Setns pidFD (default 0 (nsMap !! "pid"));
           match e with
           | Some err =>
               emit (Eprintln "setns for pid failed: %v" err);; os_Exit 1
           | None =>
               (if negb (mntNs inv) then fmt_Println [advisory] else mret tt);;
               mret true
           end
         else mret needsFork);
      mret (pidFD, needsFork)
  end.

(** Lines 134-155: run the command. *)
Definition main_launch (needsFork : bool) (command : string)
    (args : list string) (env : list (string * string)) : M unit :=
  if needsFork then
    let cmd := exec_Command command args in
    let cmd := with_Stdin os_Stdin cmd in
    let cmd := with_Stdout os_Stdout cmd in
    let cmd := with_Stderr os_Stderr cmd in
    e ← cmd_Run cmd;
    match e with
    | Some err =>
        emit (Eprint ("exec failed: " +:+ err +:+ newline));; os_Exit 1
    | None =>
        let cmd := with_SysProcAttr {| Cloneflags := CLONE_NEWPID |} cmd in
        mret tt
    end
  else
    e ← unix_Exec command (command :: args) (os_Environ env);
    match e with
    | Some err =>
        emit (Eprint ("exec " +:+ command +:+ ": " +:+ err +:+ newline));;
        os_Exit 1
    | None => mret tt
    end.

Definition main (inv : Invocation) : M unit :=
  let '(command, args) := main_command inv in
  if (pid inv <? 0) || String.eqb command "" then
    emit Usage;; os_Exit 1
  else
    '(pidFD, needsFork) ← main_joins inv;
    main_launch needsFork command args (environ inv);;
    (* deferred calls, last registered first *)
    file_Close pidFD;;
    emit UnlockOSThread.

(** The whole process: [main] returning ends it with status 0. *)
Definition run (inv : Invocation) : Outcome * list Event :=
  match main inv [] with
  | (Val _, tr) => (Exited 0, tr)
  | (Halt o, tr) => (o, tr)
  end.

End Program.

(** ** Runs *)

Definition trace (os : OS) (inv : Invocation) : list Event := (run os inv).2.
Definition outcome (os : OS) (inv : Invocation) : Outcome := (run os inv).1.

(** The invocation passes the check of line 80. *)
Definition valid (inv : Invocation) : Prop :=
  0 <= pid inv /\ (main_command inv).1 <> "".

Definition valid_b (inv : Invocation) : bool :=
  negb ((pid inv <? 0) || String.eqb (main_command inv).1 "").

(** The command that fork mode hands to [cmd.Run]. *)
Definition launch_cmd (inv : Invocation) : Cmd :=
  with_Stderr os_Stderr (with_Stdout os_Stdout (with_Stdin os_Stdin
    (exec_Command (main_command inv).1 (main_command inv).2))).

(** ** Monitors over a chronological list *)

(** Once an element satisfies [P], every later element satisfies [Q]. *)
Fixpoint after_b {A : Type} (P Q : A -> bool) (l : list A) : bool :=
  match l with
  | [] => true
  | x :: l' => (if P x then forallb Q l' else true) && after_b P Q l'
  end.

(** Every element [y] that satisfies [Q] comes after some element [x]
    with [R x y]; [past] holds the elements already seen. *)
Fixpoint preceded_b {A : Type} (R : A -> A -> bool) (Q : A -> bool)
    (past l : list A) : bool :=
  match l with
  | [] => true
  | y :: l' =>
      (if Q y then existsb (fun x => R x y) past else true)
      && preceded_b R Q (y :: past) l'
  end.

(** Some element satisfying [P] is immediately followed by one
    satisfying [Q]. *)
Fixpoint adjacent_b {A : Type} (P Q : A -> bool) (l : list A) : bool :=
  match l with
  | x :: l' =>
      match l' with
      | y :: _ => (P x && Q y) || adjacent_b P Q l'
      | [] => false
      end
  | [] => false
  end.

(** ** Kinds of events *)

(** The namespaces joined before the PID handle is opened. *)
Definition simple_ns : list Z := [CLONE_NEWUTS; CLONE_NEWNET; CLONE_NEWIPC].
Definition simple_kinds : list string := ["uts"; "net"; "ipc"].

(** A bind ([setns]) to a namespace of type [ns], successful or not. *)
Definition is_bind (ns : Z) (e : Event) : bool :=
  match e with Setns _ ns' _ => ns' =? ns | _ => false end.

Definition is_bind_ok (ns : Z) (e : Event) : bool :=
  match e with Setns _ ns' None => ns' =? ns | _ => false end.

Definition is_simple_bind (e : Event) : bool :=
  match e with Setns _ ns _ => existsb (Z.eqb ns) simple_ns | _ => false end.

Definition is_open_ok (name : string) (e : Event) : bool :=
  match e with Open n (inl _) => String.eqb n name | _ => false end.

(** [x] opened [name] and [y] is a bind through the descriptor it got. *)
Definition opened_for (name : string) (x y : Event) : bool :=
  match x, y with
  | Open n (inl fd), Setns fd' _ _ => String.eqb n name && (fd =? fd')
  | _, _ => false
  end.

Definition is_unshare_ok (e : Event) : bool :=
  match e with Unshare flags None => flags =? CLONE_NEWNS | _ => false end.

Definition unshare_failed (e : Event) : bool :=
  match e with Unshare _ (Some _) => true | _ => false end.

(** The two calls that switch the mount namespace. *)
Definition is_mount_step (e : Event) : bool :=
  match e with
  | Unshare _ _ => true
  | Setns _ ns _ => ns =? CLONE_NEWNS
  | _ => false
  end.

(** An open, a detachment or a bind that failed. *)
Definition step_failed (e : Event) : bool :=
  match e with
  | Open _ (inr _) | Unshare _ (Some _) | Setns _ _ (Some _) => true
  | _ => false
  end.

(** A failed open or bind of one of UTS, network, IPC. *)
Definition simple_join_failed (p : Z) (e : Event) : bool :=
  match e with
  | Open n (inr _) => existsb (fun k => String.eqb n (nsPath p k)) simple_kinds
  | Setns _ ns (Some _) => existsb (Z.eqb ns) simple_ns
  | _ => false
  end.

(** A join, open or launch step. *)
Definition is_step (e : Event) : bool :=
  match e with
  | Open _ _ | Unshare _ _ | Setns _ _ _ | Run _ _ | Exec _ _ _ _ => true
  | _ => false
  end.

Definition is_run (e : Event) : bool :=
  match e with Run _ _ => true | _ => false end.

Definition is_exec (e : Event) : bool :=
  match e with Exec _ _ _ _ => true | _ => false end.

Definition is_print (s : string) (e : Event) : bool :=
  match e with Print s' => String.eqb s' s | _ => false end.

Definition is_log (s : string) (e : Event) : bool :=
  match e with Log s' => String.eqb s' s | _ => false end.

Definition exited_with (status : Z) (o : Outcome) : bool :=
  match o with Exited s => s =? status | Replaced _ _ _ => false end.

(** The exit status of a fork-mode run whose child ended with [st]. *)
Definition fork_status (st : Z) : Z := if st =? 0 then 0 else 1.

(** What [main] logs when the detachment of the mount namespace fails. *)
Definition detach_msg (err : error) : string :=
  "Failed to enter " +:+ "mnt" +:+ " namespace: " +:+
  "unshare mnt before setns: " +:+ err.

(** What [main] logs when the namespace file of [kind] cannot be opened. *)
Definition open_msg (kind : string) (err : error) : string :=
  "Failed to enter " +:+ kind +:+ " namespace: " +:+
  "failed to open namespace " +:+ kind +:+ ": " +:+ err.

(** What [main] prints when the PID-namespace file cannot be opened. *)
Definition pid_open_msg (p : Z) (err : error) : string :=
  String.concat " " ["open %s: %w"; nsPath p "pid"; err] +:+ newline.

#[global] Instance Stream_eq_dec : EqDecision Stream.
Proof. solve_decision. Defined.
#[global] Instance SysProcAttr_eq_dec : EqDecision SysProcAttr.
Proof. solve_decision. Defined.
#[global] Instance Cmd_eq_dec : EqDecision Cmd.
Proof. solve_decision. Defined.

(** If [e] spawns a child, it is for the command [c0]. *)
Definition runs_cmd (c0 : Cmd) (e : Event) : bool :=
  match e with Run c _ => bool_decide (c = c0) | _ => true end.

(** ** Monitors for this program

    Each takes the trace of a run (and, where it matters, the invocation
    and the outcome). *)

(** No UTS, network or IPC bind follows a mount bind, and neither of
    these follows a PID bind. *)
Definition order_b (tr : list Event) : bool :=
  after_b (is_bind CLONE_NEWNS) (fun e => negb (is_simple_bind e)) tr
  && after_b (is_bind CLONE_NEWPID)
       (fun e => negb (is_simple_bind e || is_bind CLONE_NEWNS e)) tr.

Definition pid_handle_first_b (pidPath : string) (tr : list Event) : bool :=
  preceded_b (fun x _ => is_open_ok pidPath x) is_mount_step [] tr.

Definition pid_bind_uses_handle_b (pidPath : string) (tr : list Event)
  : bool :=
  preceded_b (opened_for pidPath) (is_bind CLONE_NEWPID) [] tr.

Definition spawn_after_bind_b (tr : list Event) : bool :=
  preceded_b (fun x _ => is_bind_ok CLONE_NEWPID x) is_run [] tr.

Definition failure_stops_b (r : Outcome * list Event) : bool :=
  after_b step_failed (fun e => negb (is_step e)) r.2
  && implb (existsb step_failed r.2) (exited_with 1 r.1).

Definition detach_before_bind_b (tr : list Event) : bool :=
  preceded_b (fun x _ => is_unshare_ok x) (is_bind CLONE_NEWNS) [] tr.

Definition detach_reported_b (tr : list Event) : bool :=
  forallb
    (fun e =>
       match e with
       | Unshare _ (Some err) =>
           forallb (fun e' => negb (is_bind CLONE_NEWNS e')) tr
           && existsb (is_log (detach_msg err)) tr
       | _ => true
       end) tr.

Definition launch_mode_b (ok pidFlag : bool) (c0 : Cmd) (tr : list Event)
  : bool :=
  implb (existsb is_run tr) pidFlag
  && implb (existsb is_exec tr) (negb pidFlag)
  && implb (ok && forallb (fun e => negb (step_failed e)) tr)
       (if pidFlag then existsb is_run tr else existsb is_exec tr)
  && forallb (runs_cmd c0) tr.

Definition advisory_b (applies : bool) (tr : list Event) : bool :=
  implb (applies && forallb (fun e => negb (step_failed e)) tr)
    (adjacent_b (is_print (advisory +:+ newline)) is_run tr).

Definition exit_status_b (r : Outcome * list Event) : bool :=
  forallb
    (fun e =>
       match e with
       | Run _ (ChildExited st) => exited_with (fork_status st) r.1
       | Run _ (ChildFailed _) => exited_with 1 r.1
       | _ => true
       end) r.2.

Definition pid_open_b (ok : bool) (p : Z) (tr : list Event) : bool :=
  implb (ok && forallb (fun e => negb (simple_join_failed p e)) tr)
    (existsb
       (fun e =>
          match e with
          | Open n _ => String.eqb n (nsPath p "pid")
          | _ => false
          end) tr).


(** ** Concrete systems and invocations *)

Definition is_open_success (e : Event) : bool :=
  match e with Open _ (inl _) => true | _ => false end.

Definition is_close (e : Event) : bool :=
  match e with Close _ => true | _ => false end.

(** Descriptors 0-2 are the standard streams; every open one after them
    takes the next number. *)
Definition next_fd (h : list Event) : Fd :=
  3 + Z.of_nat (length (List.filter is_open_success h))
    - Z.of_nat (length (List.filter is_close h)).

(** A system described by what it allows. *)
Definition os_sim (can_open : string -> bool) (can_unshare : bool)
    (can_setns : Z -> bool) (child : RunResult) (can_exec : bool) : OS :=
  {| sys_open := fun h name =>
       if can_open name then inl (next_fd h)
       else inr ("open " +:+ name +:+ ": no such file or directory");
     sys_unshare := fun _ _ =>
       if can_unshare then None else Some "operation not permitted";
     sys_setns := fun _ _ ns =>
       if can_setns ns then None else Some "operation not permitted";
     sys_run := fun _ _ => child;
     sys_execve := fun _ _ _ _ =>
       if can_exec then None else Some "no such file or directory" |}.

(** Every call succeeds; a child exits with [st]. *)
Definition os_child (st : Z) : OS :=
  os_sim (fun _ => true) true (fun _ => true) (ChildExited st) true.

Definition os_ok : OS := os_child 0.

(** The target process does not exist: no namespace file can be opened. *)
Definition os_no_target : OS :=
  os_sim (fun _ => false) true (fun _ => true) (ChildExited 0) true.

(** Binding the network namespace is refused. *)
Definition os_net_denied : OS :=
  os_sim (fun _ => true) true (fun ns => negb (ns =? CLONE_NEWNET))
    (ChildExited 0) true.

(** Binding the PID namespace is refused. *)
Definition os_pid_denied : OS :=
  os_sim (fun _ => true) true (fun ns => negb (ns =? CLONE_NEWPID))
    (ChildExited 0) true.

(** Detaching the mount namespace is refused. *)
Definition os_no_unshare : OS :=
  os_sim (fun _ => true) false (fun _ => true) (ChildExited 0) true.

Definition invocation (p : Z) (mnt uts net ipc pd : bool)
    (args : list string) : Invocation :=
  {| pid := p; mntNs := mnt; utsNs := uts; netNs := net; ipcNs := ipc;
     pidNs := pd; flag_Args := args; environ := [("SHELL", "/bin/bash")] |}.

(** All five namespaces of process 4242. *)
Definition inv_all : Invocation :=
  invocation 4242 true true true true true ["/bin/echo"; "hi"].

(** UTS and network only. *)
Definition inv_uts_net : Invocation :=
  invocation 4242 false true true false false ["/bin/ls"].

(** The PID namespace only. *)
Definition inv_pid : Invocation :=
  invocation 4242 false false false false true ["/bin/echo"; "hi"].

(** The UTS namespace only, of a process that does not exist. *)
Definition inv_uts_missing : Invocation :=
  invocation 99999 false true false false false ["/bin/ls"].

(** The mount namespace only, of a process that does not exist. *)
Definition inv_mnt_missing : Invocation :=
  invocation 99999 true false false false false [].

(** The target process does not exist: none of its namespace files can
    be opened, whenever the open is tried. *)
Definition target_missing (os : OS) (p : Z) : Prop :=
  forall (h : list Event) (kind : string),
    exists err : error, sys_open os h (nsPath p kind) = inr err.

(** ** Statements of the specification that the program does not satisfy *)

(** "The parent does not perform that bind itself": the calling process,
    whose calls the trace records, never binds the PID namespace. *)
Definition bind_left_to_child (tr : list Event) : Prop :=
  forall (fd : Fd) (r : option error), ~ In (Setns fd CLONE_NEWPID r) tr.

(** "A namespace-open failure attributed to the mount kind": the mount
    namespace file is the open that fails, or the diagnostic names it. *)
Definition mount_open_failure (inv : Invocation) (tr : list Event) : Prop :=
  exists err : error,
    In (Open (nsPath (pid inv) "mnt") (inr err)) tr \/
    In (Log (open_msg "mnt" err)) tr.

(** "For every invocation that requests the PID namespace but not the
    mount namespace, an advisory message is emitted and the operation
    still proceeds to launch the command." *)
Definition advisory_always (os : OS) (inv : Invocation) : Prop :=
  valid inv -> pidNs inv = true -> mntNs inv = false ->
  In (Print (advisory +:+ newline)) (trace os inv) /\
  exists (c : Cmd) (r : RunResult), In (Run c r) (trace os inv).

(** "On every invocation that passes argument validation, the program
    opens the target's PID-namespace file." *)
Definition pid_file_always_opened (os : OS) (inv : Invocation) : Prop :=
  valid inv ->
  exists (i : nat) (r : Fd + error),
    trace os inv !! i = Some (Open (nsPath (pid inv) "pid") r).

(** "Returns the launched child's exit status as its own, for every exit
    status the child may produce." *)
Definition child_status_returned (os : OS) (inv : Invocation) : Prop :=
  forall (c : Cmd) (st : Z),
    In (Run c (ChildExited st)) (trace os inv) -> outcome os inv = Exited st.

(** ** Reading a whole trace *)

Definition bind_of (e : Event) : option Z :=
  match e with Setns _ ns _ => Some ns | _ => None end.

Definition open_of (e : Event) : option string :=
  match e with Open n _ => Some n | _ => None end.

(** The namespace types bound, and the files opened, in order. *)
Definition binds (tr : list Event) : list Z := omap bind_of tr.
Definition opens (tr : list Event) : list string := omap open_of tr.

(** The binds an invocation asks for, in the order [main] makes them. *)
Definition requested (inv : Invocation) : list Z :=
  (if utsNs inv then [CLONE_NEWUTS] else []) ++
  (if netNs inv then [CLONE_NEWNET] else []) ++
  (if ipcNs inv then [CLONE_NEWIPC] else []) ++
  (if mntNs inv then [CLONE_NEWNS] else []) ++
  (if pidNs inv then [CLONE_NEWPID] else []).

(** The namespace files [main] opens for an invocation, in order: the PID
    file is always among them, and comes before the mount file. *)
Definition opened_kinds (inv : Invocation) : list string :=
  (if utsNs inv then ["uts"] else []) ++
  (if netNs inv then ["net"] else []) ++
  (if ipcNs inv then ["ipc"] else []) ++
  ["pid"] ++
  (if mntNs inv then ["mnt"] else []).

Definition expected_opens (inv : Invocation) : list string :=
  map (nsPath (pid inv)) (opened_kinds inv).

Fixpoint prefix_b {A : Type} (eqb : A -> A -> bool) (l1 l2 : list A) : bool :=
  match l1 with
  | [] => true
  | x :: l1' =>
      match l2 with
      | y :: l2' => eqb x y && prefix_b eqb l1' l2'
      | [] => false
      end
  end.

(** A monitor with a state: [check] holds of every element in the state
    reached by the elements before it. *)
Fixpoint monitor_b {S A : Type} (step : S -> A -> S) (check : S -> A -> bool)
    (s : S) (l : list A) : bool :=
  match l with
  | [] => true
  | x :: l' => check s x && monitor_b step check (step s x) l'
  end.

(** *** The descriptor table *)

(** The open descriptors, newest first, each with the file it was opened
    on. *)
Definition FdTable : Type := list (Fd * string).

Fixpoint close_fd (fd : Fd) (t : FdTable) : FdTable :=
  match t with
  | [] => []
  | (fd', n) :: t' => if fd' =? fd then t' else (fd', n) :: close_fd fd t'
  end.

Definition fd_step (t : FdTable) (e : Event) : FdTable :=
  match e with
  | Open n (inl fd) => (fd, n) :: t
  | Close fd => close_fd fd t
  | _ => t
  end.

(** The table after the events of [tr], starting from [t]. *)
Definition fd_table_from (t : FdTable) (tr : list Event) : FdTable :=
  fold_left fd_step tr t.

Definition fd_table (tr : list Event) : FdTable := fd_table_from [] tr.

(** The kind of namespace file that goes with a namespace type. *)
Definition kind_name (ns : Z) : string :=
  if ns =? CLONE_NEWNS then "mnt"
  else if ns =? CLONE_NEWNET then "net"
  else if ns =? CLONE_NEWIPC then "ipc"
  else if ns =? CLONE_NEWUTS then "uts"
  else if ns =? CLONE_NEWUSER then "user"
  else if ns =? CLONE_NEWPID then "pid"
  else "".

Definition holds_fd (fd : Fd) (n : string) (entry : Fd * string) : bool :=
  (entry.1 =? fd) && String.eqb entry.2 n.

Definition has_fd (fd : Fd) (entry : Fd * string) : bool := entry.1 =? fd.

(** A bind goes through an open descriptor of the target's namespace file
    of that kind; a close is of an open descriptor; a child is spawned
    while the PID handle, and nothing else, is open. *)
Definition fd_check (p : Z) (t : FdTable) (e : Event) : bool :=
  match e with
  | Setns fd ns _ => existsb (holds_fd fd (nsPath p (kind_name ns))) t
  | Close fd => existsb (has_fd fd) t
  | Run _ _ =>
      match t with
      | [(_, n)] => String.eqb n (nsPath p "pid")
      | _ => false
      end
  | _ => true
  end.

(** *** The thread lock *)

Definition lock_step (locked : bool) (e : Event) : bool :=
  match e with
  | LockOSThread => true
  | UnlockOSThread => false
  | _ => locked
  end.

(** Whether the calling thread is pinned after the events of [tr]. *)
Definition thread_locked (tr : list Event) : bool :=
  fold_left lock_step tr false.

Definition lock_check (locked : bool) (e : Event) : bool :=
  if is_step e then locked else true.

(** *** How a run ends *)

#[global] Instance Outcome_eq_dec : EqDecision Outcome.
Proof. solve_decision. Defined.

Definition is_unlock (e : Event) : bool :=
  match e with UnlockOSThread => true | _ => false end.

Definition child_ok (e : Event) : bool :=
  match e with Run _ (ChildExited st) => st =? 0 | _ => false end.

Definition is_replaced (o : Outcome) : bool :=
  match o with Replaced _ _ _ => true | Exited _ => false end.

(** Every exec is of the command line with the environment as it is; it
    ends the run as a replaced image when it succeeds and with status 1
    when it fails. *)
Definition exec_check (command : string) (args envv : list string)
    (o : Outcome) (e : Event) : bool :=
  match e with
  | Exec a v ev r =>
      bool_decide ((a, v, ev) = (command, command :: args, envv))
      && match r with
         | None => bool_decide (o = Replaced a v ev)
         | Some _ => exited_with 1 o
         end
  | _ => true
  end.

(** *** Monitors for whole runs *)

Definition sequence_b (ok : bool) (req : list Z) (paths : list string)
    (tr : list Event) : bool :=
  prefix_b Z.eqb (binds tr) req
  && prefix_b String.eqb (opens tr) paths
  && implb (ok && forallb (fun e => negb (step_failed e)) tr)
       (Nat.eqb (length (binds tr)) (length req)
        && Nat.eqb (length (opens tr)) (length paths)).

Definition descriptors_b (p : Z) (r : Outcome * list Event) : bool :=
  monitor_b fd_step (fd_check p) [] r.2
  && implb (exited_with 0 r.1)
       (match fd_table r.2 with [] => true | _ :: _ => false end)
  && monitor_b lock_step lock_check false r.2.

Definition ending_b (ok pidFlag mntFlag : bool) (command : string)
    (args envv : list string) (r : Outcome * list Event) : bool :=
  (exited_with 0 r.1 || exited_with 1 r.1 || is_replaced r.1)
  && Bool.eqb (exited_with 0 r.1) (existsb child_ok r.2)
  && Bool.eqb (exited_with 0 r.1) (existsb is_unlock r.2)
  && forallb (exec_check command args envv r.1) r.2
  && Bool.eqb (is_replaced r.1) (existsb is_exec r.2 && negb (exited_with 1 r.1))
  && implb (existsb (is_print (advisory +:+ newline)) r.2)
       (pidFlag && negb mntFlag)
  && preceded_b (fun x _ => is_bind_ok CLONE_NEWPID x)
       (is_print (advisory +:+ newline)) [] r.2
  && implb ok (match r.2 with LockOSThread :: _ => true | _ => false end).

(** * Proofs *)

(** ** The table and the paths *)

Lemma nsMap_uts : nsMap !! "uts" = Some CLONE_NEWUTS.
Proof. vm_compute. reflexivity. Qed.
Lemma nsMap_net : nsMap !! "net" = Some CLONE_NEWNET.
Proof. vm_compute. reflexivity. Qed.
Lemma nsMap_ipc : nsMap !! "ipc" = Some CLONE_NEWIPC.
Proof. vm_compute. reflexivity. Qed.
Lemma nsMap_mnt : nsMap !! "mnt" = Some CLONE_NEWNS.
Proof. vm_compute. reflexivity. Qed.
Lemma nsMap_pid : nsMap !! "pid" = Some CLONE_NEWPID.
Proof. vm_compute. reflexivity. Qed.

Lemma eqb_uts_mnt : String.eqb "uts" "mnt" = false.
Proof. reflexivity. Qed.
Lemma eqb_net_mnt : String.eqb "net" "mnt" = false.
Proof. reflexivity. Qed.
Lemma eqb_ipc_mnt : String.eqb "ipc" "mnt" = false.
Proof. reflexivity. Qed.
Lemma eqb_mnt_mnt : String.eqb "mnt" "mnt" = true.
Proof. reflexivity. Qed.

Lemma append_eqb (s a b : string) :
  String.eqb (s +:+ a) (s +:+ b) = String.eqb a b.
Proof.
  induction s as [|c s IH]; simpl; [reflexivity|].
  rewrite Ascii.eqb_refl. exact IH.
Qed.

(** Two namespace files of one process are the same file exactly when
    they are of the same kind. *)
Lemma nsPath_eqb (p : Z) (a b : string) :
  String.eqb (nsPath p a) (nsPath p b) = String.eqb a b.
Proof. apply append_eqb. Qed.

Lemma bool_decide_refl {A : Type} `{EqDecision A} (x : A) :
  bool_decide (x = x) = true.
Proof. apply bool_decide_eq_true_2. reflexivity. Qed.

Lemma valid_b_true (inv : Invocation) : valid inv -> valid_b inv = true.
Proof.
  intros [Hpid Hcmd]. unfold valid_b.
  apply Z.ltb_ge in Hpid. rewrite Hpid. simpl.
  apply String.eqb_neq in Hcmd. rewrite Hcmd. reflexivity.
Qed.

(** ** Soundness of the monitors *)

Section Monitors.
Context {A : Type}.
Implicit Types (P Q : A -> bool) (R : A -> A -> bool) (l : list A).

Lemma after_b_sound P Q l :
  after_b P Q l = true ->
  forall (i j : nat) (x y : A),
    l !! i = Some x -> P x = true -> (i < j)%nat -> l !! j = Some y ->
    Q y = true.
Proof.
  induction l as [|a l IH]; intros H i j x y Hi HP Hij Hj.
  - discriminate Hi.
  - simpl in H. apply andb_prop in H as [Hhd Htl].
    destruct j as [|j]; [lia|]. simpl in Hj.
    destruct i as [|i]; simpl in Hi.
    + injection Hi as ->. rewrite HP in Hhd.
      rewrite forallb_forall in Hhd. apply Hhd.
      apply list_elem_of_In. eapply list_elem_of_lookup_2, Hj.
    + apply (IH Htl i j x y); auto with lia.
Qed.

(** When no [Q] follows a [P] and nothing is both, every [Q] is strictly
    before every [P]. *)
Lemma after_b_before P Q l :
  after_b P (fun y => negb (Q y)) l = true ->
  (forall x, P x = true -> Q x = true -> False) ->
  forall (i j : nat) (x y : A),
    l !! i = Some x -> Q x = true -> l !! j = Some y -> P y = true ->
    (i < j)%nat.
Proof.
  intros H Hdisj i j x y Hi HQ Hj HP.
  destruct (Nat.lt_trichotomy i j) as [Hlt|[->|Hgt]]; [exact Hlt| |].
  - rewrite Hi in Hj. injection Hj as ->. destruct (Hdisj _ HP HQ).
  - pose proof (after_b_sound _ _ _ H j i y x Hj HP Hgt Hi) as Hn.
    simpl in Hn. rewrite HQ in Hn. discriminate Hn.
Qed.

Lemma preceded_b_sound R Q l :
  forall past, preceded_b R Q past l = true ->
  forall (j : nat) (y : A),
    l !! j = Some y -> Q y = true ->
    (exists x, In x past /\ R x y = true) \/
    (exists (i : nat) (x : A), (i < j)%nat /\ l !! i = Some x /\ R x y = true).
Proof.
  induction l as [|a l IH]; intros past H j y Hj HQ.
  - discriminate Hj.
  - simpl in H. apply andb_prop in H as [Hhd Htl].
    destruct j as [|j]; simpl in Hj.
    + injection Hj as ->. rewrite HQ in Hhd.
      apply existsb_exists in Hhd. left. exact Hhd.
    + destruct (IH _ Htl j y Hj HQ)
        as [(x & [<-|Hin] & HR)|(i & x & Hlt & Hi & HR)].
      * right. exists 0%nat, a. auto with lia.
      * left. exists x. auto.
      * right. exists (S i), x. auto with lia.
Qed.

Lemma preceded_b_nil R Q l :
  preceded_b R Q [] l = true ->
  forall (j : nat) (y : A),
    l !! j = Some y -> Q y = true ->
    exists (i : nat) (x : A), (i < j)%nat /\ l !! i = Some x /\ R x y = true.
Proof.
  intros H j y Hj HQ.
  destruct (preceded_b_sound R Q l [] H j y Hj HQ) as [(x & [] & _)|Hex].
  exact Hex.
Qed.

Lemma adjacent_b_sound P Q l :
  adjacent_b P Q l = true ->
  exists (i : nat) (x y : A),
    l !! i = Some x /\ l !! S i = Some y /\ P x = true /\ Q y = true.
Proof.
  induction l as [|a l IH]; intros H; [discriminate H|].
  simpl in H. destruct l as [|b l]; [discriminate H|].
  apply orb_prop in H as [H|H].
  - apply andb_prop in H as [HP HQ]. exists 0%nat, a, b. auto.
  - destruct (IH H) as (i & x & y & Hi & Hj & HP & HQ).
    exists (S i), x, y. auto.
Qed.

Lemma forallb_In P l (x : A) : forallb P l = true -> In x l -> P x = true.
Proof. intros H. rewrite forallb_forall in H. apply H. Qed.

Lemma forallb_lookup P l (i : nat) (x : A) :
  forallb P l = true -> l !! i = Some x -> P x = true.
Proof.
  intros H Hi. eapply forallb_In; [exact H|].
  apply list_elem_of_In. eapply list_elem_of_lookup_2, Hi.
Qed.

Lemma existsb_In P l (x : A) : In x l -> P x = true -> existsb P l = true.
Proof. intros Hin HP. apply existsb_exists. exists x. auto. Qed.

Lemma existsb_lookup P l (i : nat) (x : A) :
  l !! i = Some x -> P x = true -> existsb P l = true.
Proof.
  intros Hi. apply existsb_In.
  apply list_elem_of_In. eapply list_elem_of_lookup_2, Hi.
Qed.

Lemma forallb_of_In P l :
  (forall x, In x l -> P x = true) -> forallb P l = true.
Proof. intros H. apply forallb_forall. exact H. Qed.

End Monitors.

(** ** Symbolic execution

    [main] has no loop: unfolding it and splitting on the flags and on each
    answer of the system leaves one goal per path, with the trace of that
    path written out.  The monitors then compute. *)

Arguments nsPath : simpl never.
Arguments nsMap : simpl never.
Arguments pretty : simpl never.
Arguments String.append : simpl never.
Arguments String.concat : simpl never.
Arguments advisory : simpl never.
Arguments newline : simpl never.

(** Split on the earliest answer of the system that is still unknown. *)
Ltac oracle os :=
  match goal with
  | |- context [sys_open os ?h ?n] =>
      lazymatch h with
      | context [os] => fail
      | _ => destruct (sys_open os h n) as [?fd|?err]
      end
  | |- context [sys_unshare os ?h ?n] =>
      lazymatch h with
      | context [os] => fail
      | _ => destruct (sys_unshare os h n) as [?err|]
      end
  | |- context [sys_setns os ?h ?f ?n] =>
      lazymatch h with
      | context [os] => fail
      | _ => destruct (sys_setns os h f n) as [?err|]
      end
  | |- context [sys_run os ?h ?c] =>
      lazymatch h with
      | context [os] => fail
      | _ => destruct (sys_run os h c) as [?st|?err]
      end
  | |- context [sys_execve os ?h ?a ?b ?c] =>
      lazymatch h with
      | context [os] => fail
      | _ => destruct (sys_execve os h a b c) as [?err|]
      end
  | |- context [Z.eqb ?st 0] => is_var st; destruct (Z.eqb st 0) eqn:?
  end.

Ltac red_m :=
  cbv beta iota zeta delta
    [mbind M_bind mret M_ret emit call halt defer os_Open file_Close
     unix_Unshare unix_Setns os_Exit log_Fatalf fmt_Println cmd_Run unix_Exec
     app fst snd negb default from_option id orb
     pid mntNs utsNs netNs ipcNs pidNs flag_Args environ].

Ltac unfold_program :=
  unfold main_joins, main_launch, enter_or_die, enterNamespace;
  rewrite ?nsMap_uts, ?nsMap_net, ?nsMap_ipc, ?nsMap_mnt, ?nsMap_pid,
    ?eqb_uts_mnt, ?eqb_net_mnt, ?eqb_ipc_mnt, ?eqb_mnt_mnt.

(** Evaluate a monitor on the trace of one path. *)
Ltac leaf :=
  unfold order_b, pid_handle_first_b, pid_bind_uses_handle_b, spawn_after_bind_b,
    failure_stops_b, detach_before_bind_b, detach_reported_b, launch_mode_b,
    advisory_b, exit_status_b, pid_open_b;
  unfold fork_status, detach_msg, open_msg, pid_open_msg;
  cbn;
  repeat match goal with H : (_ =? 0) = _ |- _ => rewrite ?H; clear H end;
  repeat (progress (rewrite ?Z.eqb_refl, ?nsPath_eqb, ?String.eqb_refl,
                      ?bool_decide_refl); cbn);
  try reflexivity.

Ltac run_cases os :=
  let p := fresh "p" in let m := fresh "m" in let u := fresh "u" in
  let n := fresh "n" in let i := fresh "i" in let pd := fresh "pd" in
  let args := fresh "args" in let env := fresh "env" in
  let command := fresh "command" in let cargs := fresh "cargs" in
  intros os [p m u n i pd args env];
  unfold trace, outcome, run, main, valid_b, launch_cmd;
  destruct (main_command _) as [command cargs];
  unfold_program;
  red_m;
  destruct (p <? 0); [leaf|];
  destruct (String.eqb command ""); [leaf|];
  destruct m, u, n, i, pd; red_m; repeat (oracle os; red_m); leaf.

(** ** What the monitors find on every run *)

Lemma order_ok : forall os inv, order_b (trace os inv) = true.
Proof. run_cases os. Qed.

Lemma pid_handle_first : forall os inv,
  pid_handle_first_b (nsPath (pid inv) "pid") (trace os inv) = true.
Proof. run_cases os. Qed.

Lemma pid_bind_uses_handle : forall os inv,
  pid_bind_uses_handle_b (nsPath (pid inv) "pid") (trace os inv) = true.
Proof. run_cases os. Qed.

Lemma spawn_after_pid_bind : forall os inv,
  spawn_after_bind_b (trace os inv) = true.
Proof. run_cases os. Qed.

Lemma failure_stops : forall os inv, failure_stops_b (run os inv) = true.
Proof. run_cases os. Qed.

Lemma detach_before_bind : forall os inv,
  detach_before_bind_b (trace os inv) = true.
Proof. run_cases os. Qed.

Lemma detach_failure_reported : forall os inv,
  detach_reported_b (trace os inv) = true.
Proof. run_cases os. Qed.

Lemma launch_mode : forall os inv,
  launch_mode_b (valid_b inv) (pidNs inv) (launch_cmd inv) (trace os inv)
  = true.
Proof. run_cases os. Qed.

Lemma advisory_then_launch : forall os inv,
  advisory_b (valid_b inv && pidNs inv && negb (mntNs inv)) (trace os inv)
  = true.
Proof. run_cases os. Qed.

Lemma exit_status_ok : forall os inv, exit_status_b (run os inv) = true.
Proof. run_cases os. Qed.

Lemma pid_open_reached : forall os inv,
  pid_open_b (valid_b inv) (pid inv) (trace os inv) = true.
Proof. run_cases os. Qed.

(** [main_joins] hands back [needsFork] equal to the PID flag. *)
Lemma joins_needsFork os inv h :
  match main_joins os inv h with
  | (Val (_, needsFork), _) => Bool.eqb needsFork (pidNs inv)
  | (Halt _, _) => true
  end = true.
Proof.
  destruct inv as [p m u n i pd args env].
  unfold_program.
  destruct m, u, n, i, pd; red_m; repeat (oracle os; red_m); reflexivity.
Qed.

(** ** Reading the classifiers back *)

Lemma is_bind_inv (ns : Z) (e : Event) :
  is_bind ns e = true -> exists fd r, e = Setns fd ns r.
Proof.
  destruct e; try discriminate. simpl. intros H.
  apply Z.eqb_eq in H. subst. eauto.
Qed.

Lemma is_bind_ok_inv (ns : Z) (e : Event) :
  is_bind_ok ns e = true -> exists fd, e = Setns fd ns None.
Proof.
  destruct e as [| | | | | |fd ns' [err|]| | | | | | |]; try discriminate.
  simpl. intros H. apply Z.eqb_eq in H. subst. eauto.
Qed.

Lemma is_open_ok_inv (name : string) (e : Event) :
  is_open_ok name e = true -> exists fd, e = Open name (inl fd).
Proof.
  destruct e as [| | |n [fd|err]| | | | | | | | | |]; try discriminate.
  simpl. intros H. apply String.eqb_eq in H. subst. eauto.
Qed.

Lemma opened_for_inv (name : string) (x y : Event) :
  opened_for name x y = true ->
  exists fd ns r, x = Open name (inl fd) /\ y = Setns fd ns r.
Proof.
  destruct x as [| | |n [fd|err]| | | | | | | | | |]; try discriminate.
  destruct y; try discriminate. simpl. intros H.
  apply andb_prop in H as [Hn Hfd].
  apply String.eqb_eq in Hn. apply Z.eqb_eq in Hfd. subst. eauto.
Qed.

Lemma is_unshare_ok_inv (e : Event) :
  is_unshare_ok e = true -> e = Unshare CLONE_NEWNS None.
Proof.
  destruct e as [| | | | |flags [err|]| | | | | | | |]; try discriminate.
  simpl. intros H. apply Z.eqb_eq in H. subst. reflexivity.
Qed.

Lemma is_simple_bind_In (fd : Fd) (ns : Z) (r : option error) :
  In ns simple_ns -> is_simple_bind (Setns fd ns r) = true.
Proof. intros [<-|[<-|[<-|[]]]]; reflexivity. Qed.

Lemma simple_not_mount (e : Event) :
  is_bind CLONE_NEWNS e = true -> is_simple_bind e = true -> False.
Proof.
  intros H. apply is_bind_inv in H as (fd & r & ->). discriminate.
Qed.

Lemma simple_or_mount_not_pid (e : Event) :
  is_bind CLONE_NEWPID e = true ->
  is_simple_bind e || is_bind CLONE_NEWNS e = true -> False.
Proof.
  intros H. apply is_bind_inv in H as (fd & r & ->). discriminate.
Qed.

(** A failed open, detachment or bind ends the run with status 1, and
    no further step is taken. *)
Lemma failure_is_fatal (os : OS) (inv : Invocation) (i : nat) (e : Event) :
  trace os inv !! i = Some e -> step_failed e = true ->
  outcome os inv = Exited 1 /\
  forall (j : nat) (e' : Event),
    (i < j)%nat -> trace os inv !! j = Some e' -> is_step e' = false.
Proof.
  intros Hi Hf. pose proof (failure_stops os inv) as H.
  unfold failure_stops_b in H. apply andb_prop in H as [Hafter Hout].
  fold (trace os inv) in Hafter, Hout. fold (outcome os inv) in Hout.
  split.
  - rewrite (existsb_lookup _ _ _ _ Hi Hf) in Hout. simpl in Hout.
    destruct (outcome os inv) as [s|]; [|discriminate Hout].
    apply Z.eqb_eq in Hout. subst. reflexivity.
  - intros j e' Hij Hj.
    pose proof (after_b_sound _ _ _ Hafter i j e e' Hi Hf Hij Hj) as Hn.
    apply negb_true_iff in Hn. exact Hn.
Qed.

(** Whatever child is spawned, it is spawned for the command line. *)
Lemma spawned_command (os : OS) (inv : Invocation) (c : Cmd) (r : RunResult) :
  In (Run c r) (trace os inv) -> c = launch_cmd inv.
Proof.
  intros Hin. pose proof (launch_mode os inv) as H.
  unfold launch_mode_b in H. apply andb_prop in H as [_ H].
  pose proof (forallb_In _ _ _ H Hin) as Hc. simpl in Hc.
  apply bool_decide_eq_true_1 in Hc. exact Hc.
Qed.

(** A child is spawned only when the PID namespace was requested. *)
Lemma spawn_only_with_pid (os : OS) (inv : Invocation) (c : Cmd)
    (r : RunResult) :
  In (Run c r) (trace os inv) -> pidNs inv = true.
Proof.
  intros Hin. pose proof (launch_mode os inv) as H.
  unfold launch_mode_b in H.
  apply andb_prop in H as [H _]. apply andb_prop in H as [H _].
  apply andb_prop in H as [Hrun _].
  rewrite (existsb_In is_run _ _ Hin eq_refl) in Hrun. exact Hrun.
Qed.

Lemma lookup_In_event (l : list Event) (i : nat) (e : Event) :
  l !! i = Some e -> In e l.
Proof. intros H. apply list_elem_of_In. eapply list_elem_of_lookup_2, H. Qed.

(** ** The claims *)

(** A run with all five namespaces, every call succeeding. *)
Example run_all_namespaces :
  run os_ok inv_all =
  (Exited 0,
   [LockOSThread;
    Open "/proc/4242/ns/uts" (inl 3); Setns 3 CLONE_NEWUTS None; Close 3;
    Open "/proc/4242/ns/net" (inl 3); Setns 3 CLONE_NEWNET None; Close 3;
    Open "/proc/4242/ns/ipc" (inl 3); Setns 3 CLONE_NEWIPC None; Close 3;
    Open "/proc/4242/ns/pid" (inl 3);
    Open "/proc/4242/ns/mnt" (inl 4); Unshare CLONE_NEWNS None;
    Setns 4 CLONE_NEWNS None; Close 4;
    Setns 3 CLONE_NEWPID None;
    Run (launch_cmd inv_all) (ChildExited 0);
    Close 3; UnlockOSThread]).
Proof. vm_compute. reflexivity. Qed.

(** C1. On every run, every bind of the UTS, network or IPC namespace
    comes before the bind of the mount namespace, which comes before the
    bind of the PID namespace (and so do the first three). *)
Theorem join_order (os : OS) (inv : Invocation) (i j : nat)
    (fd1 fd2 : Fd) (ns1 ns2 : Z) (r1 r2 : option error) :
  trace os inv !! i = Some (Setns fd1 ns1 r1) ->
  trace os inv !! j = Some (Setns fd2 ns2 r2) ->
  (In ns1 simple_ns /\ ns2 = CLONE_NEWNS) \/
  (ns1 = CLONE_NEWNS /\ ns2 = CLONE_NEWPID) \/
  (In ns1 simple_ns /\ ns2 = CLONE_NEWPID) ->
  (i < j)%nat.
Proof.
  intros Hi Hj Hcase. pose proof (order_ok os inv) as H.
  unfold order_b in H. apply andb_prop in H as [Hmnt Hpid].
  destruct Hcase as [[Hs ->]|[[-> ->]|[Hs ->]]].
  - apply (after_b_before _ is_simple_bind _ Hmnt simple_not_mount
             i j _ _ Hi (is_simple_bind_In _ _ _ Hs) Hj).
    reflexivity.
  - apply (after_b_before _
             (fun e => is_simple_bind e || is_bind CLONE_NEWNS e)
             _ Hpid simple_or_mount_not_pid i j
             (Setns fd1 CLONE_NEWNS r1) (Setns fd2 CLONE_NEWPID r2) Hi);
      [|exact Hj|]; reflexivity.
  - apply (after_b_before _
             (fun e => is_simple_bind e || is_bind CLONE_NEWNS e)
             _ Hpid simple_or_mount_not_pid i j
             (Setns fd1 ns1 r1) (Setns fd2 CLONE_NEWPID r2) Hi); [|exact Hj|].
    + cbv beta. rewrite (is_simple_bind_In fd1 ns1 r1 Hs). reflexivity.
    + reflexivity.
Qed.

Lemma join_order_witness :
  trace os_ok inv_all !! 2%nat = Some (Setns 3 CLONE_NEWUTS None) /\
  trace os_ok inv_all !! 13%nat = Some (Setns 4 CLONE_NEWNS None) /\
  (2 < 13)%nat.
Proof.
  split; [reflexivity|]. split; [reflexivity|].
  apply (join_order os_ok inv_all 2 13 3 4 CLONE_NEWUTS CLONE_NEWNS None None).
  - reflexivity.
  - reflexivity.
  - left. split; [left; reflexivity|reflexivity].
Defined.

(** The handle on the PID namespace is also opened before the mount
    namespace is detached. *)
Lemma pid_handle_before_detach (os : OS) (inv : Invocation) (j : nat)
    (flags : Z) (r : option error) :
  trace os inv !! j = Some (Unshare flags r) ->
  exists (i : nat) (pidFD : Fd),
    (i < j)%nat /\
    trace os inv !! i = Some (Open (nsPath (pid inv) "pid") (inl pidFD)).
Proof.
  intros Hj.
  destruct (preceded_b_nil _ _ _ (pid_handle_first os inv) j _ Hj eq_refl)
    as (i & x & Hij & Hi & Hx).
  apply is_open_ok_inv in Hx as (pidFD & ->). eauto.
Qed.

(** C3. Whenever the mount namespace is bound, the file of the target's
    PID namespace has been opened, successfully, earlier in the run. *)
Theorem pid_handle_before_mount (os : OS) (inv : Invocation) (j : nat)
    (fd : Fd) (r : option error) :
  trace os inv !! j = Some (Setns fd CLONE_NEWNS r) ->
  exists (i : nat) (pidFD : Fd),
    (i < j)%nat /\
    trace os inv !! i = Some (Open (nsPath (pid inv) "pid") (inl pidFD)).
Proof.
  intros Hj.
  destruct (preceded_b_nil _ _ _ (pid_handle_first os inv) j _ Hj eq_refl)
    as (i & x & Hij & Hi & Hx).
  apply is_open_ok_inv in Hx as (pidFD & ->). eauto.
Qed.

Lemma pid_handle_before_mount_witness :
  trace os_ok inv_all !! 13%nat = Some (Setns 4 CLONE_NEWNS None) /\
  exists (i : nat) (pidFD : Fd),
    (i < 13)%nat /\
    trace os_ok inv_all !! i = Some (Open (nsPath 4242 "pid") (inl pidFD)).
Proof.
  split; [reflexivity|].
  apply (pid_handle_before_mount os_ok inv_all 13 4 None). reflexivity.
Defined.

(** C5. When an open or a bind fails, the process exits with status 1 and
    nothing after the failing call is an open, a detachment, a bind or a
    launch. *)
Theorem fail_fast (os : OS) (inv : Invocation) (i : nat) (e : Event) :
  trace os inv !! i = Some e ->
  (exists name err, e = Open name (inr err)) \/
  (exists fd ns err, e = Setns fd ns (Some err)) ->
  outcome os inv = Exited 1 /\
  forall (j : nat) (e' : Event),
    (i < j)%nat -> trace os inv !! j = Some e' -> is_step e' = false.
Proof.
  intros Hi Hfail. apply (failure_is_fatal os inv i e Hi).
  destruct Hfail as [(name & err & ->)|(fd & ns & err & ->)]; reflexivity.
Qed.

Lemma fail_fast_witness :
  trace os_net_denied inv_all !! 5%nat
    = Some (Setns 3 CLONE_NEWNET (Some "operation not permitted")) /\
  outcome os_net_denied inv_all = Exited 1 /\
  forall (j : nat) (e' : Event),
    (5 < j)%nat -> trace os_net_denied inv_all !! j = Some e' ->
    is_step e' = false.
Proof.
  split; [reflexivity|].
  apply (fail_fast os_net_denied inv_all 5
           (Setns 3 CLONE_NEWNET (Some "operation not permitted"))).
  - reflexivity.
  - right. exists 3, CLONE_NEWNET, "operation not permitted". reflexivity.
Defined.

(** The run of that witness: the network bind is refused. *)
Example run_net_denied :
  run os_net_denied inv_all =
  (Exited 1,
   [LockOSThread;
    Open "/proc/4242/ns/uts" (inl 3); Setns 3 CLONE_NEWUTS None; Close 3;
    Open "/proc/4242/ns/net" (inl 3);
    Setns 3 CLONE_NEWNET (Some "operation not permitted"); Close 3;
    Log "Failed to enter net namespace: setns for net failed: operation not permitted";
    Exit 1]).
Proof. vm_compute. reflexivity. Qed.

(** C7. A bind of the mount namespace always comes after a successful
    detachment ([unshare] of the mount namespace); and when the
    detachment fails, the mount namespace is never bound, the failure is
    logged as a detachment failure, and the process exits with status 1. *)
Theorem mount_detach_first (os : OS) (inv : Invocation) :
  (forall (j : nat) (fd : Fd) (r : option error),
     trace os inv !! j = Some (Setns fd CLONE_NEWNS r) ->
     exists i : nat,
       (i < j)%nat /\ trace os inv !! i = Some (Unshare CLONE_NEWNS None)) /\
  (forall (i : nat) (flags : Z) (err : error),
     trace os inv !! i = Some (Unshare flags (Some err)) ->
     (forall (fd : Fd) (r : option error),
        ~ In (Setns fd CLONE_NEWNS r) (trace os inv)) /\
     In (Log (detach_msg err)) (trace os inv) /\
     outcome os inv = Exited 1).
Proof.
  split.
  - intros j fd r Hj.
    destruct (preceded_b_nil _ _ _ (detach_before_bind os inv) j _ Hj
                (Z.eqb_refl _)) as (i & x & Hij & Hi & Hx).
    apply is_unshare_ok_inv in Hx as ->. eauto.
  - intros i flags err Hi.
    pose proof (forallb_lookup _ _ _ _ (detach_failure_reported os inv) Hi)
      as H.
    simpl in H. apply andb_prop in H as [Hnone Hlog].
    split; [|split].
    + intros fd r Hin. pose proof (forallb_In _ _ _ Hnone Hin) as Hn.
      discriminate Hn.
    + apply existsb_exists in Hlog as (x & Hin & Hx).
      destruct x; try discriminate Hx. simpl in Hx.
      apply String.eqb_eq in Hx. subst. exact Hin.
    + apply (failure_is_fatal os inv i _ Hi). reflexivity.
Qed.

Lemma mount_detach_first_witness :
  trace os_no_unshare inv_all !! 12%nat
    = Some (Unshare CLONE_NEWNS (Some "operation not permitted")) /\
  (forall (fd : Fd) (r : option error),
     ~ In (Setns fd CLONE_NEWNS r) (trace os_no_unshare inv_all)) /\
  In (Log (detach_msg "operation not permitted"))
    (trace os_no_unshare inv_all) /\
  outcome os_no_unshare inv_all = Exited 1.
Proof.
  split; [reflexivity|].
  apply (proj2 (mount_detach_first os_no_unshare inv_all) 12%nat CLONE_NEWNS).
  reflexivity.
Defined.

(** What [enterNamespace] itself does with the mount namespace when the
    detachment fails: it returns the detachment error, and between the
    open and the close of the namespace file there is no bind. *)
Lemma enterNamespace_detach_failure (os : OS) (p : Z) (h : list Event)
    (fd : Fd) (err : error) :
  sys_open os h (nsPath p "mnt") = inl fd ->
  sys_unshare os (h ++ [Open (nsPath p "mnt") (inl fd)]) CLONE_NEWNS
    = Some err ->
  enterNamespace os p "mnt" h =
  (Val (Some ("unshare mnt before setns: " +:+ err)),
   h ++ [Open (nsPath p "mnt") (inl fd);
         Unshare CLONE_NEWNS (Some err);
         Close fd]).
Proof.
  intros Hopen Hunshare. unfold enterNamespace.
  rewrite nsMap_mnt, eqb_mnt_mnt.
  cbv beta iota zeta delta
    [mbind M_bind mret M_ret emit call defer os_Open unix_Unshare file_Close].
  rewrite Hopen. cbv beta iota zeta. rewrite Hunshare. cbv beta iota zeta.
  rewrite <- !app_assoc. reflexivity.
Qed.

(** The first thing [main_launch] does is spawn a child when [needsFork]
    is set, and replace the process image when it is not. *)
Lemma main_launch_step (os : OS) (needsFork : bool) (command : string)
    (args : list string) (env : list (string * string)) (h : list Event) :
  exists (e : Event) (rest : list Event),
    (main_launch os needsFork command args env h).2 = h ++ e :: rest /\
    (if needsFork then is_run e else is_exec e) = true.
Proof.
  unfold main_launch.
  cbv beta iota zeta delta
    [mbind M_bind mret M_ret emit call halt cmd_Run unix_Exec os_Exit].
  destruct needsFork.
  - match goal with
    | |- context [sys_run os h ?c] => destruct (sys_run os h c) as [st|err]
    end; [destruct (st =? 0)|];
      cbv beta iota zeta; cbn [snd]; rewrite <- ?app_assoc;
      eexists _, _; (split; [reflexivity|reflexivity]).
  - match goal with
    | |- context [sys_execve os h ?a ?b ?c] =>
        destruct (sys_execve os h a b c) as [err|]
    end;
      cbv beta iota zeta; cbn [snd]; rewrite <- ?app_assoc;
      eexists _, _; (split; [reflexivity|reflexivity]).
Qed.

(** C4. [needsFork] comes out of the join sequence equal to the PID flag;
    [main_launch] spawns a child when it is set and replaces the process
    image when it is not; so a child is spawned only when the PID
    namespace was requested, the image is replaced only when it was not,
    and a valid run in which no step fails does the one or the other. *)
Theorem mode_determinism (os : OS) (inv : Invocation) :
  (forall (h h' : list Event) (pidFD : Fd) (needsFork : bool),
     main_joins os inv h = (Val (pidFD, needsFork), h') ->
     needsFork = pidNs inv) /\
  (forall (needsFork : bool) (command : string) (args : list string)
          (env : list (string * string)) (h : list Event),
     exists (e : Event) (rest : list Event),
       (main_launch os needsFork command args env h).2 = h ++ e :: rest /\
       (if needsFork then is_run e else is_exec e) = true) /\
  (forall (c : Cmd) (r : RunResult),
     In (Run c r) (trace os inv) -> pidNs inv = true) /\
  (forall (argv0 : string) (argv envv : list string) (r : option error),
     In (Exec argv0 argv envv r) (trace os inv) -> pidNs inv = false) /\
  (valid inv ->
   (forall e : Event, In e (trace os inv) -> step_failed e = false) ->
   if pidNs inv
   then exists (c : Cmd) (r : RunResult), In (Run c r) (trace os inv)
   else exists (argv0 : string) (argv envv : list string) (r : option error),
          In (Exec argv0 argv envv r) (trace os inv)).
Proof.
  pose proof (launch_mode os inv) as H. unfold launch_mode_b in H.
  apply andb_prop in H as [H _]. apply andb_prop in H as [H Hreach].
  apply andb_prop in H as [Hrun Hexec].
  split; [|split; [|split; [|split]]].
  - intros h h' pidFD needsFork Hj.
    pose proof (joins_needsFork os inv h) as Hnf. rewrite Hj in Hnf.
    apply Bool.eqb_prop in Hnf. exact Hnf.
  - intros. apply main_launch_step.
  - intros c r Hin. exact (spawn_only_with_pid os inv c r Hin).
  - intros argv0 argv envv r Hin.
    rewrite (existsb_In is_exec _ _ Hin eq_refl) in Hexec.
    apply negb_true_iff in Hexec. exact Hexec.
  - intros Hvalid Hok. rewrite (valid_b_true inv Hvalid) in Hreach.
    rewrite forallb_of_In in Hreach
      by (intros e He; rewrite (Hok e He); reflexivity).
    simpl in Hreach. destruct (pidNs inv).
    + apply existsb_exists in Hreach as (e & Hin & He).
      destruct e; try discriminate He. eauto.
    + apply existsb_exists in Hreach as (e & Hin & He).
      destruct e; try discriminate He. eauto.
Qed.

Lemma no_step_fails_ok (inv : Invocation) :
  forallb (fun e => negb (step_failed e)) (trace os_ok inv) = true ->
  forall e : Event, In e (trace os_ok inv) -> step_failed e = false.
Proof.
  intros H e He. apply negb_true_iff. exact (forallb_In _ _ _ H He).
Qed.

Lemma mode_determinism_witness :
  (exists (c : Cmd) (r : RunResult), In (Run c r) (trace os_ok inv_pid)) /\
  (exists (argv0 : string) (argv envv : list string) (r : option error),
     In (Exec argv0 argv envv r) (trace os_ok inv_uts_net)).
Proof.
  split.
  - apply (proj2 (proj2 (proj2 (proj2 (mode_determinism os_ok inv_pid))))).
    + split; [vm_compute; discriminate|vm_compute; discriminate].
    + apply no_step_fails_ok. reflexivity.
  - apply (proj2 (proj2 (proj2 (proj2 (mode_determinism os_ok inv_uts_net))))).
    + split; [vm_compute; discriminate|vm_compute; discriminate].
    + apply no_step_fails_ok. reflexivity.
Defined.

(** Scenario A: UTS and network only; the process image is replaced. *)
Example run_uts_net :
  run os_ok inv_uts_net =
  (Replaced "/bin/ls" ["/bin/ls"] ["SHELL=/bin/bash"],
   [LockOSThread;
    Open "/proc/4242/ns/uts" (inl 3); Setns 3 CLONE_NEWUTS None; Close 3;
    Open "/proc/4242/ns/net" (inl 3); Setns 3 CLONE_NEWNET None; Close 3;
    Open "/proc/4242/ns/pid" (inl 3);
    Exec "/bin/ls" ["/bin/ls"] ["SHELL=/bin/bash"] None]).
Proof. vm_compute. reflexivity. Qed.

(** Scenario B: the PID namespace only. *)
Example run_pid_only :
  run os_ok inv_pid =
  (Exited 0,
   [LockOSThread;
    Open "/proc/4242/ns/pid" (inl 3);
    Setns 3 CLONE_NEWPID None;
    Print (advisory +:+ newline);
    Run (launch_cmd inv_pid) (ChildExited 0);
    Close 3; UnlockOSThread]).
Proof. vm_compute. reflexivity. Qed.

(** The PID namespace only, and the bind of it refused: the process exits
    before the advisory. *)
Example run_pid_denied :
  run os_pid_denied inv_pid =
  (Exited 1,
   [LockOSThread;
    Open "/proc/4242/ns/pid" (inl 3);
    Setns 3 CLONE_NEWPID (Some "operation not permitted");
    Eprintln "setns for pid failed: %v" "operation not permitted";
    Exit 1]).
Proof. vm_compute. reflexivity. Qed.

(** C8, as the specification states it, fails: when the bind of the PID
    namespace is refused, a valid invocation that requests the PID
    namespace without the mount namespace prints no advisory (and
    launches nothing). *)
Lemma advisory_not_always : ~ advisory_always os_pid_denied inv_pid.
Proof.
  intros H.
  assert (Hv : valid inv_pid)
    by (split; [vm_compute; discriminate|vm_compute; discriminate]).
  destruct (H Hv eq_refl eq_refl) as [Hadv _].
  unfold trace in Hadv. rewrite run_pid_denied in Hadv.
  vm_compute in Hadv.
  destruct Hadv as [Hadv|[Hadv|[Hadv|[Hadv|[Hadv|[]]]]]]; discriminate Hadv.
Qed.

(** C8, amended. On a valid invocation that requests the PID namespace and
    not the mount namespace, and in which no open or bind fails, the
    advisory is printed and the very next call spawns the child for the
    command. *)
Theorem advisory_nonfatal (os : OS) (inv : Invocation) :
  valid inv -> pidNs inv = true -> mntNs inv = false ->
  (forall e : Event, In e (trace os inv) -> step_failed e = false) ->
  exists (i : nat) (r : RunResult),
    trace os inv !! i = Some (Print (advisory +:+ newline)) /\
    trace os inv !! S i = Some (Run (launch_cmd inv) r).
Proof.
  intros Hvalid Hpid Hmnt Hok.
  pose proof (advisory_then_launch os inv) as H. unfold advisory_b in H.
  rewrite (valid_b_true inv Hvalid), Hpid, Hmnt in H.
  rewrite forallb_of_In in H
    by (intros e He; rewrite (Hok e He); reflexivity).
  simpl in H.
  apply adjacent_b_sound in H as (i & x & y & Hi & Hj & Hx & Hy).
  destruct x; try discriminate Hx. simpl in Hx.
  apply String.eqb_eq in Hx. subst.
  destruct y as [| | | | | | | | | | |c r| |]; try discriminate Hy.
  exists i, r. split; [exact Hi|].
  rewrite Hj. do 2 f_equal.
  apply (spawned_command os inv c r).
  apply list_elem_of_In. eapply list_elem_of_lookup_2, Hj.
Qed.

Lemma advisory_nonfatal_witness :
  valid inv_pid /\
  exists (i : nat) (r : RunResult),
    trace os_ok inv_pid !! i = Some (Print (advisory +:+ newline)) /\
    trace os_ok inv_pid !! S i = Some (Run (launch_cmd inv_pid) r).
Proof.
  assert (Hv : valid inv_pid) by (split; [vm_compute; discriminate|vm_compute; discriminate]).
  split; [exact Hv|].
  apply (advisory_nonfatal os_ok inv_pid Hv).
  - reflexivity.
  - reflexivity.
  - apply no_step_fails_ok. reflexivity.
Defined.

(** A child exits with status 3: the process exits with status 1. *)
Example run_child_status_3 :
  run (os_child 3) inv_pid =
  (Exited 1,
   [LockOSThread;
    Open "/proc/4242/ns/pid" (inl 3);
    Setns 3 CLONE_NEWPID None;
    Print (advisory +:+ newline);
    Run (launch_cmd inv_pid) (ChildExited 3);
    Eprint ("exec failed: exit status 3" +:+ newline);
    Exit 1]).
Proof. vm_compute. reflexivity. Qed.

(** C9, as the specification states it, fails: a child that exits with
    status 3 makes the process exit with status 1. *)
Lemma child_status_not_returned : ~ child_status_returned (os_child 3) inv_pid.
Proof.
  intros H.
  specialize (H (launch_cmd inv_pid) 3).
  assert (Hin : In (Run (launch_cmd inv_pid) (ChildExited 3))
                  (trace (os_child 3) inv_pid)).
  { unfold trace. rewrite run_child_status_3. simpl. tauto. }
  specialize (H Hin). unfold outcome in H. rewrite run_child_status_3 in H.
  discriminate H.
Qed.

(** C9, amended. When the child of a fork-mode run has exited, the process
    exits with status 0 if the child's status was 0 and with status 1 for
    every other status of the child. *)
Theorem fork_exit_status (os : OS) (inv : Invocation) (c : Cmd) (st : Z) :
  In (Run c (ChildExited st)) (trace os inv) ->
  outcome os inv = Exited (if st =? 0 then 0 else 1).
Proof.
  intros Hin. pose proof (exit_status_ok os inv) as H.
  unfold exit_status_b in H.
  pose proof (forallb_In _ _ _ H Hin) as Hst. simpl in Hst.
  fold (outcome os inv) in Hst. unfold fork_status in Hst.
  destruct (outcome os inv) as [s|]; [|discriminate Hst].
  apply Z.eqb_eq in Hst. subst. reflexivity.
Qed.

Lemma fork_exit_status_witness :
  In (Run (launch_cmd inv_pid) (ChildExited 3)) (trace (os_child 3) inv_pid) /\
  outcome (os_child 3) inv_pid = Exited 1.
Proof.
  assert (Hin : In (Run (launch_cmd inv_pid) (ChildExited 3))
                  (trace (os_child 3) inv_pid)).
  { vm_compute. tauto. }
  split; [exact Hin|].
  exact (fork_exit_status (os_child 3) inv_pid _ 3 Hin).
Defined.

(** The UTS namespace of a process that does not exist: the run ends at
    the open of the UTS namespace file. *)
Example run_uts_missing :
  run os_no_target inv_uts_missing =
  (Exited 1,
   [LockOSThread;
    Open "/proc/99999/ns/uts"
      (inr "open /proc/99999/ns/uts: no such file or directory");
    Log "Failed to enter uts namespace: failed to open namespace uts: open /proc/99999/ns/uts: no such file or directory";
    Exit 1]).
Proof. vm_compute. reflexivity. Qed.

(** C10, as stated, fails: when the join of a namespace requested before
    it fails, the file of the target's PID namespace is not opened. *)
Lemma pid_file_not_always_opened :
  ~ pid_file_always_opened os_no_target inv_uts_missing.
Proof.
  intros H.
  assert (Hv : valid inv_uts_missing)
    by (split; [vm_compute; discriminate|vm_compute; discriminate]).
  destruct (H Hv) as (i & r & Hi).
  apply lookup_In_event in Hi.
  unfold trace in Hi. rewrite run_uts_missing in Hi. vm_compute in Hi.
  destruct Hi as [Hi|[Hi|[Hi|[Hi|[]]]]]; discriminate Hi.
Qed.

(** C10, amended. On a valid invocation in which no join of the UTS,
    network or IPC namespace fails, the file of the target's PID namespace
    is opened, whatever namespaces were requested; and whenever that open
    fails the process exits with status 1. *)
Theorem pid_handle_always_opened (os : OS) (inv : Invocation) :
  valid inv ->
  (forall e : Event,
     In e (trace os inv) -> simple_join_failed (pid inv) e = false) ->
  (exists (i : nat) (r : Fd + error),
     trace os inv !! i = Some (Open (nsPath (pid inv) "pid") r)) /\
  (forall (i : nat) (err : error),
     trace os inv !! i = Some (Open (nsPath (pid inv) "pid") (inr err)) ->
     outcome os inv = Exited 1).
Proof.
  intros Hvalid Hok. split.
  - pose proof (pid_open_reached os inv) as H. unfold pid_open_b in H.
    rewrite (valid_b_true inv Hvalid) in H.
    rewrite forallb_of_In in H
      by (intros e He; rewrite (Hok e He); reflexivity).
    simpl in H. apply existsb_exists in H as (e & Hin & He).
    destruct e as [| | |n r| | | | | | | | | |]; try discriminate He.
    apply String.eqb_eq in He. subst n.
    apply list_elem_of_In, list_elem_of_lookup in Hin as [i Hi]. eauto.
  - intros i err Hi.
    apply (failure_is_fatal os inv i _ Hi). reflexivity.
Qed.

Lemma no_simple_failure_ok (inv : Invocation) :
  forallb (fun e => negb (simple_join_failed (pid inv) e)) (trace os_ok inv)
    = true ->
  forall e : Event,
    In e (trace os_ok inv) -> simple_join_failed (pid inv) e = false.
Proof.
  intros H e He. apply negb_true_iff. exact (forallb_In _ _ _ H He).
Qed.

Lemma pid_handle_always_opened_witness :
  pidNs inv_uts_net = false /\
  exists (i : nat) (r : Fd + error),
    trace os_ok inv_uts_net !! i = Some (Open (nsPath 4242 "pid") r).
Proof.
  split; [reflexivity|].
  apply (pid_handle_always_opened os_ok inv_uts_net).
  - split; [vm_compute; discriminate|vm_compute; discriminate].
  - apply no_simple_failure_ok. reflexivity.
Defined.

(** C2, as the specification states it, fails: in fork mode the calling
    process binds the PID namespace itself, before it spawns the child. *)
Lemma pid_bind_not_left_to_child :
  ~ bind_left_to_child (trace os_ok inv_pid).
Proof.
  intros H. apply (H 3 None).
  unfold trace. rewrite run_pid_only. simpl. tauto.
Qed.

(** C2, amended. Whenever a child is spawned, the PID namespace was
    requested, the child is spawned for the command line, and the calling
    process has already bound the PID namespace itself, successfully,
    through the handle it opened earlier on the target's PID-namespace
    file. *)
Theorem pid_bind_before_spawn (os : OS) (inv : Invocation) (j : nat)
    (c : Cmd) (r : RunResult) :
  trace os inv !! j = Some (Run c r) ->
  pidNs inv = true /\
  Path c = (main_command inv).1 /\
  Args c = (main_command inv).1 :: (main_command inv).2 /\
  exists (h i : nat) (pidFD : Fd),
    (h < i < j)%nat /\
    trace os inv !! h = Some (Open (nsPath (pid inv) "pid") (inl pidFD)) /\
    trace os inv !! i = Some (Setns pidFD CLONE_NEWPID None).
Proof.
  intros Hj.
  assert (Hin : In (Run c r) (trace os inv)).
  { apply list_elem_of_In. eapply list_elem_of_lookup_2, Hj. }
  split; [exact (spawn_only_with_pid os inv c r Hin)|].
  rewrite (spawned_command os inv c r Hin).
  split; [reflexivity|]. split; [reflexivity|].
  destruct (preceded_b_nil _ _ _ (spawn_after_pid_bind os inv) j _ Hj eq_refl)
    as (i & x & Hij & Hi & Hx).
  apply is_bind_ok_inv in Hx as (pidFD & ->).
  destruct (preceded_b_nil _ _ _ (pid_bind_uses_handle os inv) i _ Hi
              (Z.eqb_refl _)) as (h & x & Hhi & Hh & Hx).
  apply opened_for_inv in Hx as (fd & ns & r' & -> & Heq).
  injection Heq as -> _ _.
  exists h, i, fd. auto with lia.
Qed.

Lemma pid_bind_before_spawn_witness :
  trace os_ok inv_pid !! 4%nat = Some (Run (launch_cmd inv_pid) (ChildExited 0))
  /\
  exists (h i : nat) (pidFD : Fd),
    (h < i < 4)%nat /\
    trace os_ok inv_pid !! h = Some (Open (nsPath 4242 "pid") (inl pidFD)) /\
    trace os_ok inv_pid !! i = Some (Setns pidFD CLONE_NEWPID None).
Proof.
  split; [reflexivity|].
  apply (pid_bind_before_spawn os_ok inv_pid 4 (launch_cmd inv_pid)
           (ChildExited 0)).
  reflexivity.
Defined.

(** Scenario C: the mount namespace of a process that does not exist.
    The open that fails is the one of the PID-namespace file. *)
Example run_mnt_missing :
  run os_no_target inv_mnt_missing =
  (Exited 1,
   [LockOSThread;
    Open "/proc/99999/ns/pid"
      (inr "open /proc/99999/ns/pid: no such file or directory");
    Print ("open %s: %w /proc/99999/ns/pid open /proc/99999/ns/pid: no such file or directory"
           +:+ newline);
    Exit 1]).
Proof. vm_compute. reflexivity. Qed.

(** C6, as the specification states it, fails: with the target missing and
    only the mount namespace requested, the mount-namespace file is never
    opened and no diagnostic names the mount kind. *)
Lemma mount_open_failure_refuted :
  ~ mount_open_failure inv_mnt_missing (trace os_no_target inv_mnt_missing).
Proof.
  intros [err H]. unfold trace in H. rewrite run_mnt_missing in H.
  vm_compute in H.
  destruct H as [[H|[H|[H|[H|[]]]]]|[H|[H|[H|[H|[]]]]]]; discriminate H.
Qed.

(** C6, amended. When the target does not exist and only the mount
    namespace is requested, the run fails at the open of the target's
    PID-namespace file: that open is the only step taken, its failure is
    printed with the path of that file, and the process exits with
    status 1. *)
Theorem missing_target_mount_only (os : OS) (inv : Invocation) :
  valid inv -> target_missing os (pid inv) ->
  mntNs inv = true -> utsNs inv = false -> netNs inv = false ->
  ipcNs inv = false -> pidNs inv = false ->
  exists err : error,
    run os inv =
    (Exited 1,
     [LockOSThread;
      Open (nsPath (pid inv) "pid") (inr err);
      Print (pid_open_msg (pid inv) err);
      Exit 1]).
Proof.
  destruct inv as [p m u n i pd args env]. cbn [pid mntNs utsNs netNs ipcNs pidNs].
  intros [Hpid Hcmd] Hmissing -> -> -> -> ->.
  destruct (Hmissing [LockOSThread] "pid") as [err Herr]. exists err.
  unfold run, main.
  destruct (main_command _) as [command cargs]. cbn [pid fst] in Hpid, Hcmd.
  apply Z.ltb_ge in Hpid. apply String.eqb_neq in Hcmd.
  cbn [pid]. rewrite Hpid, Hcmd. unfold main_joins.
  red_m. rewrite Herr. reflexivity.
Qed.

Lemma missing_target_mount_only_witness :
  valid inv_mnt_missing /\ target_missing os_no_target 99999 /\
  exists err : error,
    run os_no_target inv_mnt_missing =
    (Exited 1,
     [LockOSThread;
      Open (nsPath 99999 "pid") (inr err);
      Print (pid_open_msg 99999 err);
      Exit 1]).
Proof.
  assert (Hv : valid inv_mnt_missing)
    by (split; [vm_compute; discriminate|vm_compute; discriminate]).
  assert (Hm : target_missing os_no_target 99999)
    by (intros h kind; eexists; reflexivity).
  split; [exact Hv|]. split; [exact Hm|].
  apply (missing_target_mount_only os_no_target inv_mnt_missing Hv Hm);
    reflexivity.
Defined.

(** * More of the program *)

(** ** The new monitors on every run *)

Ltac leaf_more :=
  unfold sequence_b, descriptors_b, ending_b, requested, expected_opens,
    opened_kinds, fd_table, fd_table_from, binds, opens;
  leaf;
  unfold holds_fd, has_fd; leaf.

Ltac run_paths os :=
  let p := fresh "p" in let m := fresh "m" in let u := fresh "u" in
  let n := fresh "n" in let i := fresh "i" in let pd := fresh "pd" in
  let args := fresh "args" in let env := fresh "env" in
  let command := fresh "command" in let cargs := fresh "cargs" in
  intros os [p m u n i pd args env];
  unfold trace, outcome, run, main, valid_b, launch_cmd;
  destruct (main_command _) as [command cargs];
  unfold_program;
  red_m;
  destruct (p <? 0); [leaf_more|];
  destruct (String.eqb command ""); [leaf_more|];
  destruct m, u, n, i, pd; red_m; repeat (oracle os; red_m); leaf_more.

Lemma sequence_ok : forall os inv,
  sequence_b (valid_b inv) (requested inv) (expected_opens inv)
    (trace os inv) = true.
Proof. run_paths os. Qed.

Lemma descriptors_ok : forall os inv,
  descriptors_b (pid inv) (run os inv) = true.
Proof. run_paths os. Qed.

Lemma ending_ok : forall os inv,
  ending_b (valid_b inv) (pidNs inv) (mntNs inv) (main_command inv).1
    (main_command inv).2 (os_Environ (environ inv)) (run os inv) = true.
Proof. run_paths os. Qed.

(** ** Soundness of the new monitors *)

Lemma prefix_b_sound {A : Type} (eqb : A -> A -> bool) (l1 l2 : list A) :
  (forall x y, eqb x y = true -> x = y) ->
  prefix_b eqb l1 l2 = true -> l1 `prefix_of` l2.
Proof.
  intros Heq. revert l2.
  induction l1 as [|x l1 IH]; intros l2 H.
  - apply prefix_nil.
  - destruct l2 as [|y l2]; [discriminate H|]. simpl in H.
    apply andb_prop in H as [Hxy Hrest].
    apply Heq in Hxy. subst y. apply prefix_cons, IH, Hrest.
Qed.

Lemma monitor_b_sound {S A : Type} (step : S -> A -> S)
    (check : S -> A -> bool) (l : list A) :
  forall s, monitor_b step check s l = true ->
  forall (j : nat) (x : A),
    l !! j = Some x -> check (fold_left step (take j l) s) x = true.
Proof.
  induction l as [|a l IH]; intros s H j x Hj.
  - discriminate Hj.
  - simpl in H. apply andb_prop in H as [Hhd Htl].
    destruct j as [|j]; simpl in Hj.
    + injection Hj as ->. exact Hhd.
    + simpl. apply (IH _ Htl j x Hj).
Qed.

Lemma Z_eqb_true (x y : Z) : (x =? y) = true -> x = y.
Proof. apply Z.eqb_eq. Qed.

Lemma String_eqb_true (x y : string) : String.eqb x y = true -> x = y.
Proof. apply String.eqb_eq. Qed.

Lemma no_failure_forallb (tr : list Event) :
  (forall e : Event, In e tr -> step_failed e = false) ->
  forallb (fun e => negb (step_failed e)) tr = true.
Proof.
  intros H. apply forallb_of_In. intros e He. rewrite (H e He). reflexivity.
Qed.

Lemma lookup_In {A : Type} (l : list A) (i : nat) (x : A) :
  l !! i = Some x -> In x l.
Proof. intros H. apply list_elem_of_In. eapply list_elem_of_lookup_2, H. Qed.

(** ** The namespace table *)

Lemma nsMap_lookup (k : string) (c : Z) :
  nsMap !! k = Some c <->
  In (k, c) [("mnt", CLONE_NEWNS); ("net", CLONE_NEWNET);
             ("ipc", CLONE_NEWIPC); ("uts", CLONE_NEWUTS);
             ("user", CLONE_NEWUSER); ("pid", CLONE_NEWPID)].
Proof.
  split.
  - unfold nsMap. rewrite !lookup_insert_Some, lookup_empty. intros H. simpl.
    repeat (destruct H as [[<- <-]|[_ H]]; [tauto|]). discriminate H.
  - intros H. simpl in H.
    repeat (destruct H as [H|H];
            [injection H as <- <-; vm_compute; reflexivity|]).
    destruct H.
Qed.

Lemma nsMap_kind_name (k : string) (c : Z) :
  nsMap !! k = Some c -> kind_name c = k.
Proof.
  intros H. apply nsMap_lookup in H. simpl in H.
  repeat (destruct H as [H|H]; [injection H as <- <-; reflexivity|]).
  destruct H.
Qed.

(** X17. The table knows exactly the six kinds mnt, net, ipc, uts, user
    and pid, and no two kinds share a namespace type. *)
Theorem nsMap_supported_kinds :
  (forall k : string,
     is_Some (nsMap !! k) <->
     In k ["mnt"; "net"; "ipc"; "uts"; "user"; "pid"]) /\
  (forall (k1 k2 : string) (c : Z),
     nsMap !! k1 = Some c -> nsMap !! k2 = Some c -> k1 = k2).
Proof.
  split.
  - intros k. split.
    + intros [c Hc]. apply nsMap_lookup in Hc. simpl in Hc.
      repeat (destruct Hc as [Hc|Hc]; [injection Hc as <- _; simpl; tauto|]).
      destruct Hc.
    + intros H. simpl in H.
      repeat (destruct H as [<-|H]; [eexists; vm_compute; reflexivity|]).
      destruct H.
  - intros k1 k2 c H1 H2.
    rewrite <- (nsMap_kind_name k1 c H1). apply nsMap_kind_name, H2.
Qed.

(** ** The join sequence as a whole *)

Lemma sequence_facts (os : OS) (inv : Invocation) :
  binds (trace os inv) `prefix_of` requested inv /\
  opens (trace os inv) `prefix_of` expected_opens inv /\
  (valid inv ->
   (forall e : Event, In e (trace os inv) -> step_failed e = false) ->
   binds (trace os inv) = requested inv /\
   opens (trace os inv) = expected_opens inv).
Proof.
  pose proof (sequence_ok os inv) as H. unfold sequence_b in H.
  apply andb_prop in H as [H Hall]. apply andb_prop in H as [Hb Ho].
  apply (prefix_b_sound _ _ _ Z_eqb_true) in Hb.
  apply (prefix_b_sound _ _ _ String_eqb_true) in Ho.
  split; [exact Hb|]. split; [exact Ho|].
  intros Hvalid Hok.
  rewrite (valid_b_true inv Hvalid), (no_failure_forallb _ Hok) in Hall.
  simpl in Hall. apply andb_prop in Hall as [Hlb Hlo].
  apply Nat.eqb_eq in Hlb, Hlo.
  split; apply prefix_length_eq; auto with lia.
Qed.

(** X7. The namespace types bound in a run are always an initial segment
    of the requested ones in the order UTS, network, IPC, mount, PID (so
    nothing that was not requested is bound, and nothing twice); a valid
    run in which no step fails binds exactly the requested ones. *)
Theorem binds_follow_request (os : OS) (inv : Invocation) :
  binds (trace os inv) `prefix_of` requested inv /\
  (valid inv ->
   (forall e : Event, In e (trace os inv) -> step_failed e = false) ->
   binds (trace os inv) = requested inv).
Proof.
  destruct (sequence_facts os inv) as (Hb & _ & Hall).
  split; [exact Hb|]. intros Hvalid Hok. apply (Hall Hvalid Hok).
Qed.

Lemma binds_follow_request_witness :
  valid inv_uts_net /\
  binds (trace os_ok inv_uts_net) = [CLONE_NEWUTS; CLONE_NEWNET].
Proof.
  assert (Hv : valid inv_uts_net)
    by (split; [vm_compute; discriminate|vm_compute; discriminate]).
  split; [exact Hv|].
  apply (proj2 (binds_follow_request os_ok inv_uts_net) Hv).
  apply no_step_fails_ok. reflexivity.
Defined.

(** X8. The files opened in a run are always an initial segment of: the
    UTS, network and IPC files that were requested, then the PID file,
    then the mount file if requested.  So the file of a kind that was not
    requested is never opened, the PID file excepted; a valid run in
    which no step fails opens exactly these. *)
Theorem opens_follow_request (os : OS) (inv : Invocation) :
  opens (trace os inv) `prefix_of` expected_opens inv /\
  (valid inv ->
   (forall e : Event, In e (trace os inv) -> step_failed e = false) ->
   opens (trace os inv) = expected_opens inv).
Proof.
  destruct (sequence_facts os inv) as (_ & Ho & Hall).
  split; [exact Ho|]. intros Hvalid Hok. apply (Hall Hvalid Hok).
Qed.

Lemma opens_follow_request_witness :
  valid inv_uts_net /\
  opens (trace os_ok inv_uts_net) =
  ["/proc/4242/ns/uts"; "/proc/4242/ns/net"; "/proc/4242/ns/pid"].
Proof.
  assert (Hv : valid inv_uts_net)
    by (split; [vm_compute; discriminate|vm_compute; discriminate]).
  split; [exact Hv|].
  apply (proj2 (opens_follow_request os_ok inv_uts_net) Hv).
  apply no_step_fails_ok. reflexivity.
Defined.

(** ** Descriptors *)

Lemma descriptors_facts (os : OS) (inv : Invocation) :
  monitor_b fd_step (fd_check (pid inv)) [] (trace os inv) = true /\
  (outcome os inv = Exited 0 -> fd_table (trace os inv) = []) /\
  monitor_b lock_step lock_check false (trace os inv) = true.
Proof.
  pose proof (descriptors_ok os inv) as H. unfold descriptors_b in H.
  fold (trace os inv) in H. fold (outcome os inv) in H.
  apply andb_prop in H as [H Hlock]. apply andb_prop in H as [Hfd Hleak].
  split; [exact Hfd|]. split; [|exact Hlock].
  intros Hout. rewrite Hout in Hleak. simpl in Hleak.
  destruct (fd_table (trace os inv)); [reflexivity|discriminate Hleak].
Qed.

Lemma bound_type_known (os : OS) (inv : Invocation) (j : nat) (fd : Fd)
    (ns : Z) (r : option error) :
  trace os inv !! j = Some (Setns fd ns r) ->
  nsMap !! kind_name ns = Some ns.
Proof.
  intros Hj.
  assert (Hin : ns ∈ binds (trace os inv)).
  { unfold binds. apply list_elem_of_omap.
    exists (Setns fd ns r). split; [|reflexivity].
    eapply list_elem_of_lookup_2, Hj. }
  destruct (sequence_facts os inv) as ([k Hk] & _).
  assert (Hreq : ns ∈ requested inv)
    by (rewrite Hk; apply elem_of_app; left; exact Hin).
  clear Hin Hk. rename Hreq into Hin. unfold requested in Hin.
  destruct (utsNs inv), (netNs inv), (ipcNs inv), (mntNs inv), (pidNs inv);
    simpl in Hin;
    repeat match goal with
    | H : _ ∈ [] |- _ => inversion H
    | H : _ ∈ _ :: _ |- _ => apply elem_of_cons in H as [->|H]
    end; vm_compute; reflexivity.
Qed.

(** X9. Every bind goes through a descriptor that is open at that moment
    and was opened on the target's namespace file of the very kind that
    is being bound. *)
Theorem bind_through_open_descriptor (os : OS) (inv : Invocation) (j : nat)
    (fd : Fd) (ns : Z) (r : option error) :
  trace os inv !! j = Some (Setns fd ns r) ->
  exists kind : string,
    nsMap !! kind = Some ns /\
    In (fd, nsPath (pid inv) kind) (fd_table (take j (trace os inv))).
Proof.
  intros Hj. exists (kind_name ns).
  split; [exact (bound_type_known os inv j fd ns r Hj)|].
  destruct (descriptors_facts os inv) as (Hfd & _).
  pose proof (monitor_b_sound _ _ _ _ Hfd j _ Hj) as H. simpl in H.
  apply existsb_exists in H as ([fd' n] & Hin & Hentry).
  unfold holds_fd in Hentry. simpl in Hentry.
  apply andb_prop in Hentry as [Hf Hn].
  apply Z.eqb_eq in Hf. apply String.eqb_eq in Hn. subst. exact Hin.
Qed.

Lemma bind_through_open_descriptor_witness :
  trace os_ok inv_all !! 13%nat = Some (Setns 4 CLONE_NEWNS None) /\
  exists kind : string,
    nsMap !! kind = Some CLONE_NEWNS /\
    In (4, nsPath 4242 kind) (fd_table (take 13 (trace os_ok inv_all))).
Proof.
  split; [reflexivity|].
  apply (bind_through_open_descriptor os_ok inv_all 13 4 CLONE_NEWNS None).
  reflexivity.
Defined.

(** X10. A descriptor is closed only while it is open, and when [main]
    returns (exit status 0) every descriptor the program opened has been
    closed. *)
Theorem descriptors_closed (os : OS) (inv : Invocation) :
  (forall (j : nat) (fd : Fd),
     trace os inv !! j = Some (Close fd) ->
     exists n : string, In (fd, n) (fd_table (take j (trace os inv)))) /\
  (outcome os inv = Exited 0 -> fd_table (trace os inv) = []).
Proof.
  destruct (descriptors_facts os inv) as (Hfd & Hleak & _).
  split; [|exact Hleak].
  intros j fd Hj.
  pose proof (monitor_b_sound _ _ _ _ Hfd j _ Hj) as H. simpl in H.
  apply existsb_exists in H as ([fd' n] & Hin & Hentry).
  unfold has_fd in Hentry. simpl in Hentry. apply Z.eqb_eq in Hentry.
  subst. exists n. exact Hin.
Qed.

Lemma descriptors_closed_witness :
  outcome os_ok inv_all = Exited 0 /\ fd_table (trace os_ok inv_all) = [].
Proof.
  split; [reflexivity|].
  apply (proj2 (descriptors_closed os_ok inv_all)). reflexivity.
Defined.

(** X11. When the child is spawned, the handle on the target's PID
    namespace is still open and is the only descriptor the program holds:
    it is closed only after [cmd.Run] has returned. *)
Theorem pid_handle_held_at_spawn (os : OS) (inv : Invocation) (j : nat)
    (c : Cmd) (r : RunResult) :
  trace os inv !! j = Some (Run c r) ->
  exists pidFD : Fd,
    fd_table (take j (trace os inv)) = [(pidFD, nsPath (pid inv) "pid")].
Proof.
  intros Hj. destruct (descriptors_facts os inv) as (Hfd & _).
  pose proof (monitor_b_sound _ _ _ _ Hfd j _ Hj) as H. simpl in H.
  unfold fd_table, fd_table_from.
  destruct (fold_left fd_step (take j (trace os inv)) [])
    as [|[pidFD n] [|]]; try discriminate H.
  apply String.eqb_eq in H. subst. eauto.
Qed.

Lemma pid_handle_held_at_spawn_witness :
  trace os_ok inv_all !! 16%nat = Some (Run (launch_cmd inv_all) (ChildExited 0))
  /\
  exists pidFD : Fd,
    fd_table (take 16 (trace os_ok inv_all)) = [(pidFD, nsPath 4242 "pid")].
Proof.
  split; [reflexivity|].
  apply (pid_handle_held_at_spawn os_ok inv_all 16 (launch_cmd inv_all)
           (ChildExited 0)).
  reflexivity.
Defined.

(** ** How a run ends *)

Lemma ending_facts (os : OS) (inv : Invocation) :
  (exited_with 0 (outcome os inv) || exited_with 1 (outcome os inv)
   || is_replaced (outcome os inv) = true) /\
  exited_with 0 (outcome os inv) = existsb child_ok (trace os inv) /\
  exited_with 0 (outcome os inv) = existsb is_unlock (trace os inv) /\
  forallb (exec_check (main_command inv).1 (main_command inv).2
             (os_Environ (environ inv)) (outcome os inv)) (trace os inv)
    = true /\
  is_replaced (outcome os inv)
    = existsb is_exec (trace os inv) && negb (exited_with 1 (outcome os inv))
  /\
  (existsb (is_print (advisory +:+ newline)) (trace os inv) = true ->
   pidNs inv = true /\ mntNs inv = false) /\
  preceded_b (fun x _ => is_bind_ok CLONE_NEWPID x)
    (is_print (advisory +:+ newline)) [] (trace os inv) = true /\
  (valid inv -> exists rest, trace os inv = LockOSThread :: rest).
Proof.
  pose proof (ending_ok os inv) as H. unfold ending_b in H.
  fold (trace os inv) in H. fold (outcome os inv) in H.
  apply andb_prop in H as [H Hfirst]. apply andb_prop in H as [H Hpre].
  apply andb_prop in H as [H Hadv]. apply andb_prop in H as [H Hrepl].
  apply andb_prop in H as [H Hexec]. apply andb_prop in H as [H Hunlock].
  apply andb_prop in H as [Hrange Hchild].
  apply Bool.eqb_prop in Hchild, Hunlock, Hrepl.
  split; [exact Hrange|]. split; [exact Hchild|]. split; [exact Hunlock|].
  split; [exact Hexec|]. split; [exact Hrepl|]. split; [|split].
  - intros Hex. rewrite Hex in Hadv. simpl in Hadv.
    apply andb_prop in Hadv as [Hpid Hmnt]. apply negb_true_iff in Hmnt.
    auto.
  - exact Hpre.
  - intros Hvalid. rewrite (valid_b_true inv Hvalid) in Hfirst.
    simpl in Hfirst.
    destruct (trace os inv) as [|[] rest]; try discriminate Hfirst. eauto.
Qed.

(** X13. Every run ends with exit status 0, with exit status 1, or as a
    replaced process image; status 0 is reached exactly when a spawned
    child has exited with status 0, and exactly then does the deferred
    unlock of the thread run. *)
Theorem exit_status_zero (os : OS) (inv : Invocation) :
  (outcome os inv = Exited 0 \/ outcome os inv = Exited 1 \/
   exists argv0 argv envv, outcome os inv = Replaced argv0 argv envv) /\
  (outcome os inv = Exited 0 <->
   exists c : Cmd, In (Run c (ChildExited 0)) (trace os inv)) /\
  (outcome os inv = Exited 0 <-> In UnlockOSThread (trace os inv)).
Proof.
  destruct (ending_facts os inv) as (Hrange & Hchild & Hunlock & _).
  split; [|split].
  - destruct (outcome os inv) as [s|a v e]; [|eauto 6].
    simpl in Hrange. apply orb_prop in Hrange as [Hr|Hr]; [|discriminate Hr].
    apply orb_prop in Hr as [Hr|Hr]; apply Z.eqb_eq in Hr; subst; auto.
  - split.
    + intros Hout. rewrite Hout in Hchild. simpl in Hchild.
      symmetry in Hchild. apply existsb_exists in Hchild as (e & Hin & He).
      destruct e as [| | | | | | | | | | |c [st|err]| |]; try discriminate He.
      simpl in He. apply Z.eqb_eq in He. subst. eauto.
    + intros [c Hin].
      rewrite (existsb_In child_ok _ _ Hin eq_refl) in Hchild.
      destruct (outcome os inv) as [s|]; [|discriminate Hchild].
      simpl in Hchild. apply Z.eqb_eq in Hchild. subst. reflexivity.
  - split.
    + intros Hout. rewrite Hout in Hunlock. simpl in Hunlock.
      symmetry in Hunlock. apply existsb_exists in Hunlock as (e & Hin & He).
      destruct e; try discriminate He. exact Hin.
    + intros Hin.
      rewrite (existsb_In is_unlock _ _ Hin eq_refl) in Hunlock.
      destruct (outcome os inv) as [s|]; [|discriminate Hunlock].
      simpl in Hunlock. apply Z.eqb_eq in Hunlock. subst. reflexivity.
Qed.

(** X14. Replace mode: every exec is of the command with the command as
    [argv[0]] followed by its arguments, and with the environment that
    [os.Environ] reports (the first binding of each key, in order); it
    happens only when the PID namespace was not requested; a failed exec
    ends the run with status 1, and the run ends as a replaced image
    exactly when the exec succeeded. *)
Theorem exec_replaces_image (os : OS) (inv : Invocation) :
  (forall (argv0 : string) (argv envv : list string) (r : option error),
     In (Exec argv0 argv envv r) (trace os inv) ->
     argv0 = (main_command inv).1 /\
     argv = (main_command inv).1 :: (main_command inv).2 /\
     envv = os_Environ (environ inv) /\
     pidNs inv = false /\
     (r <> None -> outcome os inv = Exited 1)) /\
  (forall (argv0 : string) (argv envv : list string),
     outcome os inv = Replaced argv0 argv envv <->
     In (Exec argv0 argv envv None) (trace os inv)).
Proof.
  destruct (ending_facts os inv) as (_ & _ & _ & Hexec & Hrepl & _).
  assert (Hchk : forall a v ev r,
            In (Exec a v ev r) (trace os inv) ->
            (a, v, ev) = ((main_command inv).1,
                          (main_command inv).1 :: (main_command inv).2,
                          os_Environ (environ inv)) /\
            match r with
            | None => outcome os inv = Replaced a v ev
            | Some _ => exited_with 1 (outcome os inv) = true
            end).
  { intros a v ev r Hin. pose proof (forallb_In _ _ _ Hexec Hin) as H.
    simpl in H. apply andb_prop in H as [Heq Hr].
    apply bool_decide_eq_true_1 in Heq. split; [exact Heq|].
    destruct r; [exact Hr|]. apply bool_decide_eq_true_1 in Hr. exact Hr. }
  split.
  - intros a v ev r Hin. destruct (Hchk a v ev r Hin) as [Heq Hr].
    injection Heq as -> -> ->. repeat split.
    + pose proof (launch_mode os inv) as H. unfold launch_mode_b in H.
      apply andb_prop in H as [H _]. apply andb_prop in H as [H _].
      apply andb_prop in H as [_ H].
      rewrite (existsb_In is_exec _ _ Hin eq_refl) in H.
      apply negb_true_iff in H. exact H.
    + intros Hne. destruct r; [|congruence].
      destruct (outcome os inv) as [s|]; [|discriminate Hr].
      simpl in Hr. apply Z.eqb_eq in Hr. subst. reflexivity.
  - intros a v ev. split.
    + intros Hout. rewrite Hout in Hrepl. simpl in Hrepl.
      symmetry in Hrepl. rewrite andb_true_r in Hrepl.
      apply existsb_exists in Hrepl as (e & Hin & He).
      destruct e as [| | | | | | | | | | | |a' v' ev' r|]; try discriminate He.
      destruct (Hchk a' v' ev' r Hin) as [_ Hr]. destruct r.
      * rewrite Hout in Hr. discriminate Hr.
      * rewrite Hout in Hr. injection Hr as -> -> ->. exact Hin.
    + intros Hin. exact (proj2 (Hchk a v ev None Hin)).
Qed.

Lemma exec_replaces_image_witness :
  In (Exec "/bin/ls" ["/bin/ls"] ["SHELL=/bin/bash"] None)
    (trace os_ok inv_uts_net) /\
  outcome os_ok inv_uts_net = Replaced "/bin/ls" ["/bin/ls"] ["SHELL=/bin/bash"].
Proof.
  assert (Hin : In (Exec "/bin/ls" ["/bin/ls"] ["SHELL=/bin/bash"] None)
                  (trace os_ok inv_uts_net)).
  { vm_compute. tauto. }
  split; [exact Hin|].
  apply (proj2 (exec_replaces_image os_ok inv_uts_net)). exact Hin.
Defined.

(** A key bound twice reaches the new image once, with its first value. *)
Example os_Environ_first_binding :
  os_Environ [("SHELL", "/bin/bash"); ("A", "1"); ("B", "3"); ("A", "2")]
  = ["SHELL=/bin/bash"; "A=1"; "B=3"].
Proof. reflexivity. Qed.

(** X15. The advisory is printed only when the PID namespace is requested
    without the mount namespace, and only after the PID namespace has
    been bound successfully. *)
Theorem advisory_only_after_pid_bind (os : OS) (inv : Invocation) (j : nat) :
  trace os inv !! j = Some (Print (advisory +:+ newline)) ->
  pidNs inv = true /\ mntNs inv = false /\
  exists (i : nat) (fd : Fd),
    (i < j)%nat /\ trace os inv !! i = Some (Setns fd CLONE_NEWPID None).
Proof.
  intros Hj.
  destruct (ending_facts os inv) as (_ & _ & _ & _ & _ & Hflags & Hpre & _).
  assert (Hadv : is_print (advisory +:+ newline)
                   (Print (advisory +:+ newline)) = true)
    by apply String.eqb_refl.
  destruct (Hflags (existsb_lookup _ _ _ _ Hj Hadv)) as [Hpid Hmnt].
  split; [exact Hpid|]. split; [exact Hmnt|].
  destruct (preceded_b_nil _ _ _ Hpre j _ Hj Hadv) as (i & x & Hij & Hi & Hx).
  apply is_bind_ok_inv in Hx as (fd & ->). eauto.
Qed.

Lemma advisory_only_after_pid_bind_witness :
  trace os_ok inv_pid !! 3%nat = Some (Print (advisory +:+ newline)) /\
  pidNs inv_pid = true /\ mntNs inv_pid = false /\
  exists (i : nat) (fd : Fd),
    (i < 3)%nat /\ trace os_ok inv_pid !! i = Some (Setns fd CLONE_NEWPID None).
Proof.
  split; [reflexivity|].
  apply (advisory_only_after_pid_bind os_ok inv_pid 3). reflexivity.
Defined.

(** X12. Every open, detachment, bind, spawn and exec is made while the
    calling thread is locked to its operating-system thread. *)
Theorem steps_on_locked_thread (os : OS) (inv : Invocation) (j : nat)
    (e : Event) :
  trace os inv !! j = Some e -> is_step e = true ->
  thread_locked (take j (trace os inv)) = true.
Proof.
  intros Hj He. destruct (descriptors_facts os inv) as (_ & _ & Hlock).
  pose proof (monitor_b_sound _ _ _ _ Hlock j _ Hj) as H.
  unfold lock_check in H. rewrite He in H. exact H.
Qed.

Lemma steps_on_locked_thread_witness :
  trace os_ok inv_all !! 13%nat = Some (Setns 4 CLONE_NEWNS None) /\
  thread_locked (take 13 (trace os_ok inv_all)) = true.
Proof.
  split; [reflexivity|].
  apply (steps_on_locked_thread os_ok inv_all 13 (Setns 4 CLONE_NEWNS None));
    reflexivity.
Defined.

(** X16. Every child is started with the standard streams of the process
    and with no [SysProcAttr]: the clone flags that [main] writes into the
    command after [cmd.Run] has returned reach no child. *)
Theorem child_streams_and_attributes (os : OS) (inv : Invocation) (c : Cmd)
    (r : RunResult) :
  In (Run c r) (trace os inv) ->
  Stdin c = Some os_Stdin /\ Stdout c = Some os_Stdout /\
  Stderr c = Some os_Stderr /\ SysProcAttr_ c = None.
Proof.
  intros Hin. rewrite (spawned_command os inv c r Hin). auto.
Qed.

Lemma child_streams_and_attributes_witness :
  In (Run (launch_cmd inv_pid) (ChildExited 0)) (trace os_ok inv_pid) /\
  SysProcAttr_ (launch_cmd inv_pid) = None.
Proof.
  assert (Hin : In (Run (launch_cmd inv_pid) (ChildExited 0))
                  (trace os_ok inv_pid)).
  { vm_compute. tauto. }
  split; [exact Hin|].
  apply (child_streams_and_attributes os_ok inv_pid _ _ Hin).
Defined.

(** ** Validation and the command line *)

(** X5. The command is empty only when the first positional argument is
    the empty string: with no positional argument it is the value of
    SHELL, or /bin/sh when that is unset or empty.  When there are
    positional arguments, the command and its arguments are those. *)
Theorem command_line (inv : Invocation) :
  ((main_command inv).1 = "" <-> exists rest, flag_Args inv = "" :: rest) /\
  (flag_Args inv = [] ->
   main_command inv =
   (if String.eqb (os_Getenv (environ inv) "SHELL") ""
    then "/bin/sh" else os_Getenv (environ inv) "SHELL", [])) /\
  (flag_Args inv <> [] ->
   (main_command inv).1 :: (main_command inv).2 = flag_Args inv).
Proof.
  unfold main_command. destruct (flag_Args inv) as [|a rest]; simpl.
  - split; [|split; [reflexivity|congruence]].
    split; [|intros [rest H]; discriminate H].
    destruct (String.eqb _ "") eqn:E; [discriminate|].
    intros H. apply String.eqb_neq in E. contradiction.
  - split; [|split; [discriminate|reflexivity]].
    split; [intros ->; eauto|intros [rest' H]; congruence].
Qed.

(** X6. An invocation that fails the check of line 80 (negative or
    missing target, or empty command) prints the usage and exits with
    status 1 without a single system call; one that passes it starts by
    locking the thread. *)
Theorem validation (os : OS) (inv : Invocation) :
  (~ valid inv -> run os inv = (Exited 1, [Usage; Exit 1])) /\
  (valid inv -> exists rest, trace os inv = LockOSThread :: rest).
Proof.
  split; [|exact (proj2 (proj2 (proj2 (proj2 (proj2 (proj2 (proj2
                   (ending_facts os inv))))))))].
  intros Hinv. unfold run, main.
  destruct (main_command inv) as [command args] eqn:Hcmd.
  assert (Hb : (pid inv <? 0) || String.eqb command "" = true).
  { destruct (pid inv <? 0) eqn:Hp; [reflexivity|].
    destruct (String.eqb command "") eqn:Hc; [reflexivity|].
    exfalso. apply Hinv. split.
    - apply Z.ltb_ge, Hp.
    - rewrite Hcmd. simpl. apply String.eqb_neq, Hc. }
  rewrite Hb. reflexivity.
Qed.

Lemma validation_witness :
  run os_ok (invocation (-1) true true true true true ["/bin/ls"])
  = (Exited 1, [Usage; Exit 1]).
Proof.
  apply (proj1 (validation os_ok
                  (invocation (-1) true true true true true ["/bin/ls"]))).
  intros [Hpid _]. vm_compute in Hpid. apply Hpid. reflexivity.
Defined.

(** ** [enterNamespace] on its own *)

(** One goal per path through [enterNamespace], for any kind. *)
Ltac enter_paths os p k h :=
  unfold enterNamespace;
  cbv beta iota zeta delta
    [mbind M_bind mret M_ret emit call defer os_Open unix_Unshare unix_Setns
     file_Close];
  destruct (sys_open os h (nsPath p k)) as [?fd|?err];
  [destruct (nsMap !! k) as [?c|] eqn:?Hmap;
   [destruct (String.eqb k "mnt") eqn:?Hmnt;
    [match goal with
     | |- context [sys_unshare os ?h' ?f] =>
         destruct (sys_unshare os h' f) as [?err|]
     end|];
    cbv beta iota zeta;
    try match goal with
        | |- context [sys_setns os ?h' ?f ?c'] =>
            destruct (sys_setns os h' f c') as [?err|]
        end|]|];
  cbv beta iota zeta; rewrite <- ?app_assoc; cbn [app].

(** X1. [enterNamespace] never ends the process; it opens exactly one
    file, the target's namespace file of the given kind; and on every
    return path (success, unsupported kind, failed detachment, failed
    bind) it has closed the descriptor it got, so that the descriptor
    table is as it found it. *)
Theorem enterNamespace_releases_descriptor (os : OS) (p : Z) (k : string)
    (h : list Event) :
  exists (e : option error) (new : list Event),
    enterNamespace os p k h = (Val e, h ++ new) /\
    opens new = [nsPath p k] /\
    forall t : FdTable, fd_table_from t new = t.
Proof.
  enter_paths os p k h; eexists _, _; (split; [reflexivity|]);
    (split; [reflexivity|]); intros t; unfold fd_table_from; cbn;
    rewrite ?Z.eqb_refl; reflexivity.
Qed.

(** X2. [enterNamespace] returns nil only when it has bound the calling
    thread: the kind is in the table, the file was opened, the mount
    namespace (and only it) was detached first, the bind with the table's
    namespace type succeeded, and the descriptor was closed after it. *)
Theorem enterNamespace_nil_means_bound (os : OS) (p : Z) (k : string)
    (h h' : list Event) :
  enterNamespace os p k h = (Val None, h') ->
  exists (fd : Fd) (c : Z),
    nsMap !! k = Some c /\
    h' = h ++ [Open (nsPath p k) (inl fd)]
           ++ (if String.eqb k "mnt" then [Unshare CLONE_NEWNS None] else [])
           ++ [Setns fd c None; Close fd].
Proof.
  enter_paths os p k h; intros H; try discriminate H;
    injection H as <-; eexists _, _; (split; [reflexivity|]); reflexivity.
Qed.

Lemma enterNamespace_nil_means_bound_witness :
  enterNamespace os_ok 4242 "user" [] =
    (Val None,
     [Open "/proc/4242/ns/user" (inl 3); Setns 3 CLONE_NEWUSER None; Close 3])
  /\
  exists (fd : Fd) (c : Z),
    nsMap !! "user" = Some c /\
    [Open "/proc/4242/ns/user" (inl 3); Setns 3 CLONE_NEWUSER None; Close 3]
    = [] ++ [Open (nsPath 4242 "user") (inl fd)]
         ++ (if String.eqb "user" "mnt" then [Unshare CLONE_NEWNS None] else [])
         ++ [Setns fd c None; Close fd].
Proof.
  assert (H : enterNamespace os_ok 4242 "user" [] =
              (Val None,
               [Open "/proc/4242/ns/user" (inl 3);
                Setns 3 CLONE_NEWUSER None; Close 3]))
    by (vm_compute; reflexivity).
  split; [exact H|].
  exact (enterNamespace_nil_means_bound os_ok 4242 "user" [] _ H).
Defined.

(** X3. For a kind that is not in the table, [enterNamespace] still opens
    the namespace file first: it always returns an error, binds and
    detaches nothing, and the error is "unsupported namespace" only when
    that open succeeded (a failed open is reported instead). *)
Theorem enterNamespace_unsupported (os : OS) (p : Z) (k : string)
    (h : list Event) :
  nsMap !! k = None ->
  (forall fd : Fd,
     sys_open os h (nsPath p k) = inl fd ->
     enterNamespace os p k h =
     (Val (Some ("unsupported namespace: " +:+ k)),
      h ++ [Open (nsPath p k) (inl fd); Close fd])) /\
  (forall err : error,
     sys_open os h (nsPath p k) = inr err ->
     enterNamespace os p k h =
     (Val (Some ("failed to open namespace " +:+ k +:+ ": " +:+ err)),
      h ++ [Open (nsPath p k) (inr err)])).
Proof.
  intros Hnone. split.
  - intros fd Hopen. unfold enterNamespace.
    cbv beta iota zeta delta
      [mbind M_bind mret M_ret emit call defer os_Open file_Close].
    rewrite Hopen, Hnone. cbv beta iota zeta.
    rewrite <- ?app_assoc. reflexivity.
  - intros err Hopen. unfold enterNamespace.
    cbv beta iota zeta delta [mbind M_bind mret M_ret call os_Open].
    rewrite Hopen. reflexivity.
Qed.

Lemma enterNamespace_unsupported_witness :
  nsMap !! "cgroup" = None /\
  enterNamespace os_ok 4242 "cgroup" [] =
  (Val (Some ("unsupported namespace: " +:+ "cgroup")),
   [] ++ [Open (nsPath 4242 "cgroup") (inl 3); Close 3]).
Proof.
  assert (H : nsMap !! "cgroup" = None) by (vm_compute; reflexivity).
  split; [exact H|].
  apply (proj1 (enterNamespace_unsupported os_ok 4242 "cgroup" [] H) 3).
  reflexivity.
Defined.

(** X4. [enterNamespace] makes at most one bind, with the namespace type
    the table gives for the kind, and detaches nothing but the mount
    namespace, for the kind mnt only. *)
Theorem enterNamespace_binds_its_kind (os : OS) (p : Z) (k : string)
    (h : list Event) :
  exists (e : option error) (new : list Event),
    enterNamespace os p k h = (Val e, h ++ new) /\
    (binds new = [] \/ exists c : Z, nsMap !! k = Some c /\ binds new = [c]) /\
    (forall (flags : Z) (r : option error),
       In (Unshare flags r) new -> k = "mnt" /\ flags = CLONE_NEWNS).
Proof.
  enter_paths os p k h; eexists _, _; (split; [reflexivity|]);
    (split;
     [first [left; reflexivity
            |right; eexists; split; [reflexivity|reflexivity]]|]);
    intros flags r Hin; simpl in Hin;
    repeat match goal with
           | H : _ \/ _ |- _ => destruct H as [H|H]
           | H : False |- _ => destruct H
           | H : _ = Unshare _ _ |- _ =>
               first [discriminate H
                     |injection H as <- _; apply String.eqb_eq in Hmnt; auto]
           end.
Qed.

Lemma enterNamespace_binds_its_kind_witness :
  exists (e : option error) (new : list Event),
    enterNamespace os_ok 4242 "mnt" [] = (Val e, [] ++ new) /\
    (binds new = [] \/
     exists c : Z, nsMap !! "mnt" = Some c /\ binds new = [c]) /\
    (forall (flags : Z) (r : option error),
       In (Unshare flags r) new -> "mnt" = "mnt" /\ flags = CLONE_NEWNS).
Proof. exact (enterNamespace_binds_its_kind os_ok 4242 "mnt" []). Defined.

(** ** Instances *)

Lemma exit_status_zero_witness :
  In UnlockOSThread (trace os_ok inv_all) /\ outcome os_ok inv_all = Exited 0.
Proof.
  assert (Hin : In UnlockOSThread (trace os_ok inv_all))
    by (vm_compute; tauto).
  split; [exact Hin|].
  apply (proj2 (proj2 (proj2 (exit_status_zero os_ok inv_all)))). exact Hin.
Defined.

(** Scenario D: no command given and no SHELL in the environment. *)
Lemma command_line_witness :
  main_command
    {| pid := 4242; mntNs := true; utsNs := false; netNs := false;
       ipcNs := false; pidNs := false; flag_Args := []; environ := [] |}
  = ("/bin/sh", []).
Proof.
  apply (proj1 (proj2 (command_line
    {| pid := 4242; mntNs := true; utsNs := false; netNs := false;
       ipcNs := false; pidNs := false; flag_Args := []; environ := [] |}))).
  reflexivity.
Defined.

Lemma nsMap_supported_kinds_witness : is_Some (nsMap !! "user").
Proof.
  apply (proj1 nsMap_supported_kinds "user"). simpl. tauto.
Defined.
